(** * RoamIQ backend: crowd-forecast fallback pipeline and persona scorers

    A shallow embedding of the Python backend (src/backend) and the
    properties its specification states about it.

    Conventions of the embedding.
    - Python [int] is [Z]; [str] is [string] (text is taken to be ASCII:
      [str.lower] and [len] act on bytes); [Optional[T]] is [option T].
    - A Python [float] is an exact rational [Q]: the scorers' arithmetic
      is read as exact arithmetic, [round(x, 1)] as rounding to a tenth
      with ties to even.  Two places are modelled in binary64 instead,
      so that they return what CPython returns: [predict_busyness],
      which turns an inexact double product into an [int] (the kernel's
      floats), and [extract_busyness_from_venue], which rounds a
      quotient of a sum by a count (the kernel's specification of the
      doubles; the sum is taken exactly, as Python takes a sum of
      [int]s).  NaN and infinities are left out.
    - Decoded JSON is the tree [json]; operations on it follow Python's
      dynamic typing and raise where Python raises.
    - Exceptions are values of [exn] in the [result] monad; code that talks
      to the forecast service runs in the monad [IO], which threads the log
      of sleeps and HTTP exchanges and reads the service's answers from an
      oracle.  Logging calls are left out.
    - Embedded: services/besttime.py, services/crowd_predictor.py,
      services/elderly_scorer.py, services/child_scorer.py and the routers
      crowd.py, elderly.py, child.py.  The explanation strings ([reasons],
      [suggestions]) of the scorers and of the elderly router are left
      out, those of the child router are the function [suggestions_of];
      the venue discovery and chat routers are outside the
      specification. *)

From Stdlib Require Import ZArith QArith Qround Qminmax String Ascii List Bool.
From Stdlib Require Import DecimalString.
From Stdlib Require Import Lia Lqa Permutation Sorted.
From Stdlib Require Import PrimFloat FloatOps SpecFloat Uint63.
Import ListNotations.

#[local] Set Warnings "-inexact-float,-register-all".
#[local] Open Scope string_scope.
#[local] Open Scope list_scope.
#[local] Open Scope Z_scope.

(** ** Python values and built-ins *)

Module Py.

(** Exception classes the modelled code can raise or catch. [HTTPError]
    stands for every way one HTTP exchange can fail in [httpx]: transport
    error, time-out, [raise_for_status] on an error status, a body that is
    not JSON. *)
Inductive exn_class :=
| AttributeError | TypeError | KeyError | IndexError | ValueError
| OverflowError | ZeroDivisionError | HTTPError.

(** [HTTPException] is FastAPI's; it is a subclass of [Exception] like the
    others, so [except Exception] catches it too. *)
Inductive exn :=
| PyExn (cls : exn_class) (msg : string)
| HTTPException (status_code : Z) (detail : string).

Definition str_exn (e : exn) : string :=
  match e with
  | PyExn _ msg => msg
  | HTTPException _ detail => detail
  end.

Inductive result (A : Type) :=
| Ok (a : A)
| Raise (e : exn).
Arguments Ok {A} a.
Arguments Raise {A} e.

Definition bind {A B} (m : result A) (k : A -> result B) : result B :=
  match m with
  | Ok a => k a
  | Raise e => Raise e
  end.

Definition raise {A} (c : exn_class) (msg : string) : result A :=
  Raise (PyExn c msg).

(** A comprehension [[f(a) for a in l]] whose [f] may raise. *)
Fixpoint for_all {A B} (f : A -> result B) (l : list A) : result (list B) :=
  match l with
  | [] => Ok []
  | a :: r => bind (f a) (fun b => bind (for_all f r) (fun bs => Ok (b :: bs)))
  end.

(** *** Strings *)

Definition lower_ascii (c : ascii) : ascii :=
  let n := nat_of_ascii c in
  if (Nat.leb 65 n && Nat.leb n 90)%bool then ascii_of_nat (n + 32) else c.

Fixpoint lower (s : string) : string :=
  match s with
  | EmptyString => EmptyString
  | String c r => String (lower_ascii c) (lower r)
  end.

(** [contains kw text] is Python's [kw in text]. *)
Fixpoint contains (kw text : string) : bool :=
  if String.prefix kw text then true
  else match text with
       | EmptyString => false
       | String _ r => contains kw r
       end.

Definition str_nonempty (s : string) : bool :=
  match s with EmptyString => false | _ => true end.

(** [x or ''] for an optional string. *)
Definition or_empty (x : option string) : string :=
  match x with Some s => s | None => "" end.

(** Truthiness of an [Optional[str]]. *)
Definition opt_str_truthy (x : option string) : bool :=
  match x with Some s => str_nonempty s | None => false end.

(** [s.split(sep)[0]]: the text before the first [sep]. *)
Fixpoint split_first (sep : ascii) (s : string) : string :=
  match s with
  | EmptyString => EmptyString
  | String c r => if Ascii.eqb c sep then EmptyString else String c (split_first sep r)
  end.

(** The characters [int] skips around the digits of an ASCII string:
    space, tab, line feed, vertical tab, form feed, carriage return. *)
Definition is_space (c : ascii) : bool :=
  let n := nat_of_ascii c in
  (Nat.eqb n 32 || (Nat.leb 9 n && Nat.leb n 13))%bool.

Definition is_digit (c : ascii) : bool :=
  let n := nat_of_ascii c in (Nat.leb 48 n && Nat.leb n 57)%bool.

Definition digit_val (c : ascii) : Z := Z.of_nat (nat_of_ascii c) - 48.

Fixpoint lstrip (l : list ascii) : list ascii :=
  match l with
  | c :: r => if is_space c then lstrip r else l
  | [] => []
  end.

Definition strip (l : list ascii) : list ascii :=
  rev (lstrip (rev (lstrip l))).

(** Decimal digits, single underscores allowed between digits. *)
Fixpoint int_digits (l : list ascii) (acc : Z) (prev_digit : bool) : option Z :=
  match l with
  | [] => if prev_digit then Some acc else None
  | c :: r =>
      if is_digit c then int_digits r (acc * 10 + digit_val c) true
      else if (Ascii.eqb c "_" && prev_digit)%bool then int_digits r acc false
      else None
  end.

(** [int(s)] on a string: [None] is [ValueError]. *)
Definition py_int (s : string) : option Z :=
  match strip (list_ascii_of_string s) with
  | c :: r =>
      if Ascii.eqb c "-" then option_map Z.opp (int_digits r 0 false)
      else if Ascii.eqb c "+" then int_digits r 0 false
      else int_digits (c :: r) 0 false
  | [] => None
  end.

(** [str(n)] for an [int], as in an f-string. *)
Definition str_of_int (n : Z) : string := NilZero.string_of_int (Z.to_int n).

(** [sep.join(l)]. *)
Definition join (sep : string) (l : list string) : string := String.concat sep l.

(** The double quote character. *)
Definition dquote : string := String (ascii_of_nat 34) EmptyString.

(** *** Lists *)

(** [l[i]], negative indices counting from the end. *)
Definition list_index {A} (l : list A) (i : Z) : result A :=
  let j := if i <? 0 then i + Z.of_nat (List.length l) else i in
  if j <? 0 then raise IndexError "list index out of range"
  else match nth_error l (Z.to_nat j) with
       | Some a => Ok a
       | None => raise IndexError "list index out of range"
       end.

Definition len {A} (l : list A) : Z := Z.of_nat (List.length l).

Definition sumZ (l : list Z) : Z := fold_left Z.add l 0.

Definition sumQ (l : list Q) : Q := fold_left Qplus l (0 # 1).

(** Lookup in a table keyed by strings ([dict.get(k, default)]). *)
Fixpoint assoc {A} (d : list (string * A)) (k : string) : option A :=
  match d with
  | [] => None
  | (k', v) :: r => if String.eqb k' k then Some v else assoc r k
  end.

Definition mem (x : string) (l : list string) : bool :=
  existsb (String.eqb x) l.

(** [sum(1 for kw in keywords if kw in text)]. *)
Definition count_hits (keywords : list string) (text : string) : Z :=
  len (filter (fun kw => contains kw text) keywords).

(** [any(t in text for t in types)]. *)
Definition any_in (types : list string) (text : string) : bool :=
  existsb (fun t => contains t text) types.

(** *** Numbers *)

(** [round(x)] on an exact rational: the nearest integer, ties to the
    even one. *)
Definition round_q (x : Q) : Z :=
  let k := Qfloor x in
  match ((x - inject_Z k) * 2 ?= 1)%Q with
  | Lt => k
  | Gt => k + 1
  | Eq => if Z.even k then k else k + 1
  end.

(** [round(x, n)] for [scale = 10 ^ n]. *)
Definition round_to (scale : positive) (x : Q) : Q :=
  round_q (x * (Z.pos scale # 1)) # scale.

Definition round1 (x : Q) : Q := round_to 10 x.

Definition round2 (x : Q) : Q := round_to 100 x.

Definition Qgt_bool (x y : Q) : bool := negb (Qle_bool x y).

(** [max(0, min(100, x))]. *)
Definition clamp100 (x : Q) : Q := Qmax 0 (Qmin (100 # 1) x).

(** Conversion of an [int] to a double, as in [base * 0.8]; exact below
    2 ^ 53, which covers every value the code converts. *)
Definition float_of_int (z : Z) : float :=
  if z <? 0 then PrimFloat.opp (PrimFloat.of_uint63 (Uint63.of_Z (- z)))
  else PrimFloat.of_uint63 (Uint63.of_Z z).

(** [round(f)] on a double: the exact value, ties to even; raises on
    infinities and NaN. *)
Definition round_float (f : float) : result Z :=
  match Prim2SF f with
  | S754_zero _ => Ok 0
  | S754_finite s m e =>
      let n := if s then Z.neg m else Z.pos m in
      Ok (if 0 <=? e then n * 2 ^ e else round_q (n # Z.to_pos (2 ^ (- e))))
  | S754_infinity _ => raise OverflowError "cannot convert float infinity to integer"
  | S754_nan => raise ValueError "cannot convert float NaN to integer"
  end.

(** *** Doubles

    Where the source rounds a quotient the double is computed, with the
    kernel's specification of binary64.  A number the model carries as a
    rational is a Python [int] when it is whole and otherwise the
    [float] it names: the double nearest to it. *)

Definition SF_of_Z (n : Z) : spec_float :=
  match n with
  | Z0 => S754_zero false
  | Zpos p => S754_finite false p 0
  | Zneg p => S754_finite true p 0
  end.

(** The double nearest to [x], ties to even; an infinity beyond the
    largest double. *)
Definition nearest_double (x : Q) : spec_float :=
  let r := Qred x in
  SFdiv 53 1024 (SF_of_Z (Qnum r)) (S754_finite false (Qden r) 0).

(** The exact value of a finite double. *)
Definition double_value (f : spec_float) : option Q :=
  match f with
  | S754_zero _ => Some 0%Q
  | S754_finite s m e =>
      let n := if s then Z.neg m else Z.pos m in
      Some (if 0 <=? e then inject_Z (n * 2 ^ e) else Qmake n (Z.to_pos (2 ^ (- e))))
  | _ => None
  end.

Definition is_whole (q : Q) : bool := Qnum q mod Z.pos (Qden q) =? 0.

(** [float(x)] for a number: an [int] beyond the doubles is refused, a
    [float] is returned as it is. *)
Definition py_float (q : Q) : result Q :=
  if is_whole q then
    match nearest_double q with
    | S754_infinity _ => raise OverflowError "int too large to convert to float"
    | _ => Ok q
    end
  else Ok q.

(** [x >= 0] for a number: a [float] below zero that is nearer to zero
    than to any other double is the double [-0.0], which is not below
    zero. *)
Definition ge_zero (q : Q) : bool :=
  Qle_bool 0 q
  || match nearest_double q with S754_zero _ => true | _ => false end.

(** [total / n] for an exact [total] and an [int] [n], the quotient
    being a double: the one nearest to the exact quotient. *)
Definition true_divide (total : Q) (n : Z) : result Q :=
  if n =? 0 then raise ZeroDivisionError "division by zero"
  else match double_value (nearest_double (total / inject_Z n)%Q) with
       | Some d => Ok d
       | None => raise OverflowError "integer division result too large for a float"
       end.

(** [l.sort(key=key, reverse=True)]. The built-in sort is stable, also
    with [reverse=True]; on keys that are totally ordered every stable
    sort returns the same list, here computed by insertion: an element
    goes behind the elements with a strictly larger key and before the
    ones of equal key that followed it in the input. *)
Fixpoint insert_desc {A} (key : A -> Q) (x : A) (l : list A) : list A :=
  match l with
  | [] => [x]
  | y :: r => if Qgt_bool (key y) (key x) then y :: insert_desc key x r else x :: l
  end.

Fixpoint sort_desc {A} (key : A -> Q) (l : list A) : list A :=
  match l with
  | [] => []
  | x :: r => insert_desc key x (sort_desc key r)
  end.

(** *** Decoded JSON *)

Inductive json :=
| JNull
| JBool (b : bool)
| JNum (q : Q)
| JStr (s : string)
| JList (l : list json)
| JDict (d : list (string * json)).

Definition truthy (j : json) : bool :=
  match j with
  | JNull => false
  | JBool b => b
  | JNum q => negb (Qeq_bool q 0)
  | JStr s => str_nonempty s
  | JList l => match l with [] => false | _ => true end
  | JDict d => match d with [] => false | _ => true end
  end.

(** [a or b]. *)
Definition py_or (a b : json) : json := if truthy a then a else b.

(** [j.get(k, default)]; anything but a dict has no [get]. *)
Definition get (j : json) (k : string) (default : json) : result json :=
  match j with
  | JDict d => Ok (match assoc d k with Some v => v | None => default end)
  | _ => raise AttributeError "object has no attribute 'get'"
  end.

Definition is_dict (j : json) : bool :=
  match j with JDict _ => true | _ => false end.

(** [isinstance(j, (int, float))] with the value; [bool] is an [int]. *)
Definition number (j : json) : option Q :=
  match j with
  | JNum q => Some q
  | JBool b => Some (if b then 1 # 1 else 0 # 1)
  | _ => None
  end.

Definition chars (s : string) : list json :=
  map (fun c => JStr (String c EmptyString)) (list_ascii_of_string s).

(** [len(j)]. *)
Definition json_len (j : json) : result Z :=
  match j with
  | JStr s => Ok (Z.of_nat (String.length s))
  | JList l => Ok (len l)
  | JDict d => Ok (len d)
  | _ => raise TypeError "object has no len()"
  end.

(** [j[i]] for an integer [i]: a JSON object has no integer key. *)
Definition json_index (j : json) (i : Z) : result json :=
  match j with
  | JStr s => list_index (chars s) i
  | JList l => list_index l i
  | JDict _ => raise KeyError "key"
  | _ => raise TypeError "object is not subscriptable"
  end.

(** [for x in j]. *)
Definition json_iter (j : json) : result (list json) :=
  match j with
  | JStr s => Ok (chars s)
  | JList l => Ok l
  | JDict d => Ok (map (fun kv => JStr (fst kv)) d)
  | _ => raise TypeError "object is not iterable"
  end.

(** A value tested with [is None]. *)
Definition not_none (j : json) : option json :=
  match j with JNull => None | _ => Some j end.

(** The strictly positive numbers of a row, as in
    [[h for h in day if isinstance(h, (int, float)) and h > 0]]. *)
Fixpoint positive_numbers (row : list json) : list Q :=
  match row with
  | [] => []
  | h :: r =>
      match number h with
      | Some q => if Qgt_bool q 0 then q :: positive_numbers r else positive_numbers r
      | None => positive_numbers r
      end
  end.

(** The values gathered from the rows of [week_raw] that are lists. *)
Definition all_positive_hours (days : list json) : list Q :=
  flat_map (fun day => match day with JList row => positive_numbers row | _ => [] end) days.

(** [sum(xs) / len(xs)]. *)
Definition mean (xs : list Q) : Q := (sumQ xs / inject_Z (len xs))%Q.

(** [j > n] for an integer literal [n]. *)
Definition json_gt (j : json) (n : Z) : result bool :=
  match number j with
  | Some q => Ok (negb (Qle_bool q (inject_Z n)))
  | None => raise TypeError "'>' not supported"
  end.

End Py.

Export Py.

Declare Scope result_scope.
Delimit Scope result_scope with result.
Notation "x <- m ;; k" := (bind m (fun x => k))
  (at level 61, m at next level, right associativity) : result_scope.

(** ** The forecast service as seen from the client *)

Module Io.

(** The HTTP requests the client sends (services/besttime.py). *)
Inductive request :=
| PostVenuesSearch (api_key_private q : string) (num : Z)
| GetVenuesProgress (job_id collection_id : json)
| GetForecastsWeekly (api_key_public : string) (venue_id : json)
| GetForecastsDaily (api_key_public : string) (venue_id : json) (day_int : Z)
| GetForecastsLive (api_key_public : string) (venue_id : json)
| GetForecastsBest (api_key_public : string) (venue_id : json).

(** What a request observes: every exchange is logged with its outcome,
    [Ok body] for a 2xx answer with a JSON body, [Raise] otherwise. *)
Inductive event :=
| EvSleep (seconds : Z)
| EvHttp (req : request) (resp : result json).

(** The service answers a request knowing all that happened before. *)
Definition service := list event -> request -> result json.

Definition IO (A : Type) := service -> list event -> result A * list event.

Definition ret {A} (a : A) : IO A := fun _ w => (Ok a, w).

Definition throw {A} (e : exn) : IO A := fun _ w => (Raise e, w).

Definition lift {A} (r : result A) : IO A := fun _ w => (r, w).

Definition bindIO {A B} (m : IO A) (k : A -> IO B) : IO B :=
  fun svc w =>
    match m svc w with
    | (Ok a, w') => k a svc w'
    | (Raise e, w') => (Raise e, w')
    end.

(** [try: body / except Exception as e: handler e]. *)
Definition try_except {A} (body : IO A) (handler : exn -> IO A) : IO A :=
  fun svc w =>
    match body svc w with
    | (Ok a, w') => (Ok a, w')
    | (Raise e, w') => handler e svc w'
    end.

(** [await asyncio.sleep(seconds)]. *)
Definition sleep (seconds : Z) : IO unit :=
  fun _ w => (Ok tt, w ++ [EvSleep seconds]).

(** One exchange: the request, [raise_for_status()], [json()]. *)
Definition http (req : request) : IO json :=
  fun svc w => let r := svc w req in (r, w ++ [EvHttp req r]).

(** A [for] loop that appends one result per element. *)
Fixpoint for_each {A B} (f : A -> IO B) (l : list A) : IO (list B) :=
  match l with
  | [] => ret []
  | a :: r =>
      bindIO (f a) (fun b => bindIO (for_each f r) (fun bs => ret (b :: bs)))
  end.

End Io.

Export Io.

Declare Scope io_scope.
Delimit Scope io_scope with io.
Notation "x <- m ;; k" := (bindIO m (fun x => k))
  (at level 61, m at next level, right associativity) : io_scope.

(** ** services/besttime.py *)

Module besttime.

Record BestTimeClient := {
  api_key_private : string;
  api_key_public : string
}.

Definition is_configured (self : BestTimeClient) : bool :=
  if negb (str_nonempty (api_key_private self)) || negb (str_nonempty (api_key_public self))
  then false
  else if contains "your_private_key" (api_key_private self)
          || contains "your_public" (api_key_public self)
  then false
  else true.

Definition max_polls : nat := 15.
Definition poll_interval : Z := 2.

(** What the [try] block of one poll reads from the payload; it raises
    when the payload is not a JSON object. *)
Definition job_finished_of (progress_data : json) : result json :=
  (job_finished <- get progress_data "job_finished" (JBool false) ;;
   _ <- get progress_data "count_completed" (JNum 0) ;;
   _ <- get progress_data "count_total" (JNum 0) ;;
   Ok job_finished)%result.

(** One turn of the [for] loop of [venue_search]. [inl p]: the function
    returns [p]. [inr v]: the loop goes on, [v] being the binding of the
    local [progress_data] ([None] while it was never assigned). An
    exception raised after the assignment leaves the new binding. *)
Definition poll_once (job_id collection_id : json) (progress_data : option json)
  : IO (json + option json) :=
  (_ <- sleep poll_interval ;;
   fun svc w =>
     match http (GetVenuesProgress job_id collection_id) svc w with
     | (Raise _, w') => (Ok (inr progress_data), w')
     | (Ok pd, w') =>
         match job_finished_of pd with
         | Raise _ => (Ok (inr (Some pd)), w')
         | Ok job_finished =>
             if truthy job_finished then (Ok (inl pd), w')
             else (Ok (inr (Some pd)), w')
         end
     end)%io.

(** The loop over [range(max_polls)] and the statement after it:
    [progress_data if 'progress_data' in dir() else start_data]. *)
Fixpoint poll_loop (job_id collection_id : json) (polls : list nat)
    (progress_data : option json) (start_data : json) : IO json :=
  match polls with
  | [] => ret (match progress_data with Some pd => pd | None => start_data end)
  | _ :: rest =>
      (r <- poll_once job_id collection_id progress_data ;;
       match r with
       | inl pd => ret pd
       | inr progress_data' => poll_loop job_id collection_id rest progress_data' start_data
       end)%io
  end.

Definition venue_search (self : BestTimeClient) (query : string) (num : Z) : IO json :=
  (start_data <- http (PostVenuesSearch (api_key_private self) query num) ;;
   job_id <- lift (get start_data "job_id" JNull) ;;
   collection_id <- lift (get start_data "collection_id" JNull) ;;
   if negb (truthy job_id) || negb (truthy collection_id) then ret start_data
   else poll_loop job_id collection_id (seq 0 max_polls) None start_data)%io.


Definition get_forecast_day (self : BestTimeClient) (venue_id : json) (day_int : Z) : IO json :=
  http (GetForecastsDaily (api_key_public self) venue_id day_int).


Definition get_best_times (self : BestTimeClient) (venue_id : json) : IO json :=
  http (GetForecastsBest (api_key_public self) venue_id).

End besttime.

(** ** services/crowd_predictor.py *)

Module crowd_predictor.

Definition _VENUE_PATTERNS : list (string * list string) := [
  ("beach",      ["beach"; "shore"; "coast"; "seaside"; "marina"]);
  ("temple",     ["temple"; "mandir"; "kovil"; "church"; "mosque"; "shrine"; "cathedral"; "basilica"]);
  ("restaurant", ["restaurant"; "cafe"; "dine"; "dining"; "food"; "eat"; "breakfast"; "lunch"; "dinner"; "biryani"; "dosa"; "tiffin"; "mess"; "hotel"]);
  ("station",    ["railway"; "station"; "junction"; "bus stand"; "airport"; "terminal"; "departure"; "arrival"]);
  ("hotel",      ["hotel"; "resort"; "check-in"; "check-out"; "accommodation"; "stay"; "lodge"; "inn"]);
  ("monument",   ["fort"; "palace"; "monument"; "memorial"; "museum"; "gallery"; "tomb"; "mausoleum"]);
  ("park",       ["park"; "garden"; "botanical"; "zoo"; "wildlife"; "sanctuary"; "reserve"]);
  ("market",     ["market"; "bazaar"; "shopping"; "mall"; "shop"; "souvenir"; "store"]);
  ("viewpoint",  ["viewpoint"; "view point"; "sunset"; "sunrise"; "scenic"; "lookout"; "tip"; "cape"; "point"]);
  ("waterfall",  ["waterfall"; "falls"; "dam"; "lake"; "river"; "backwater"]);
  ("attraction", ["attraction"; "tour"; "sightseeing"; "explore"; "visit"])
].

Definition _HOURLY_CURVES : list (string * list Z) := [
  ("beach",
   [5; 3; 2; 2; 3; 10; 25; 35; 40; 35; 30; 25;
    20; 25; 30; 40; 55; 75; 85; 60; 35; 20; 10; 5]);
  ("temple",
   [5; 3; 2; 2; 5; 30; 65; 70; 55; 40; 30; 25;
    20; 15; 15; 20; 35; 60; 70; 55; 35; 20; 10; 5]);
  ("restaurant",
   [3; 2; 2; 2; 2; 5; 15; 45; 65; 50; 30; 25;
    50; 70; 55; 30; 20; 25; 45; 70; 75; 60; 35; 15]);
  ("station",
   [20; 15; 10; 10; 15; 30; 55; 70; 75; 60; 45; 40;
    40; 45; 50; 55; 65; 75; 80; 70; 55; 45; 35; 25]);
  ("hotel",
   [10; 5; 3; 3; 5; 10; 20; 35; 50; 55; 60; 55;
    50; 50; 55; 55; 50; 45; 40; 35; 30; 25; 20; 15]);
  ("monument",
   [3; 2; 2; 2; 3; 5; 10; 20; 35; 50; 65; 70;
    55; 45; 50; 55; 60; 55; 40; 25; 15; 10; 5; 3]);
  ("park",
   [3; 2; 2; 2; 5; 15; 35; 50; 55; 50; 45; 40;
    35; 30; 35; 45; 55; 65; 60; 40; 25; 15; 8; 5]);
  ("market",
   [2; 2; 2; 2; 3; 5; 10; 20; 35; 50; 65; 70;
    60; 55; 55; 60; 70; 75; 70; 55; 40; 25; 15; 5]);
  ("viewpoint",
   [10; 5; 3; 3; 5; 30; 55; 45; 35; 30; 25; 25;
    25; 25; 30; 40; 55; 75; 85; 60; 30; 15; 10; 8]);
  ("waterfall",
   [3; 2; 2; 2; 3; 5; 15; 25; 40; 55; 65; 70;
    60; 50; 50; 55; 55; 45; 30; 20; 10; 5; 3; 3]);
  ("attraction",
   [3; 2; 2; 2; 3; 5; 15; 25; 40; 55; 65; 70;
    60; 55; 55; 60; 60; 55; 40; 30; 20; 10; 5; 3])
].

Definition _DEFAULT_CURVE : list Z :=
  [5; 3; 3; 3; 5; 10; 20; 35; 45; 55; 60; 65;
   55; 50; 50; 55; 60; 60; 50; 40; 30; 20; 10; 5].

(** Mon=0 .. Sun=6; the literals denote the nearest doubles. *)
Definition _DAY_MULTIPLIERS : list float :=
  [0.80; 0.80; 0.85; 0.90; 0.95; 1.15; 1.20]%float.

(** The two nested [for] loops of [classify_venue]. *)
Fixpoint first_pattern (text : string) (patterns : list (string * list string)) : option string :=
  match patterns with
  | [] => None
  | (venue_type, keywords) :: rest =>
      if existsb (fun kw => contains kw text) keywords then Some venue_type
      else first_pattern text rest
  end.

Definition classify_venue (title : string) (location : option string) : string :=
  let text := lower (title ++ " " ++ or_empty location)%string in
  match first_pattern text _VENUE_PATTERNS with
  | Some venue_type => venue_type
  | None => "attraction"
  end.

(** [round(sum(curve) / len(curve))]. *)
Definition curve_mean (curve : list Z) : result Z :=
  if len curve =? 0 then raise ZeroDivisionError "division by zero"
  else round_float (PrimFloat.div (float_of_int (sumZ curve)) (float_of_int (len curve))).

Definition in_range (lo x hi : Z) : bool := (lo <=? x) && (x <=? hi).

(** The base value read from the curve. *)
Definition base_busyness (curve : list Z) (hour : option Z) : result Z :=
  match hour with
  | Some h => if in_range 0 h 23 then list_index curve h else curve_mean curve
  | None => curve_mean curve
  end.

(** The day-of-week modifier. *)
Definition apply_day (base : Z) (day_of_week : option Z) : result Z :=
  match day_of_week with
  | Some d =>
      if in_range 0 d 6 then
        (m <- list_index _DAY_MULTIPLIERS d ;;
         round_float (PrimFloat.mul (float_of_int base) m))%result
      else Ok base
  | None => Ok base
  end.

Definition band_tip (busyness : Z) : string :=
  if 80 <? busyness then "🔴 Predicted very crowded! Consider visiting at a quieter hour."
  else if 60 <? busyness then "🟡 Expected to be moderately busy. Plan extra time."
  else if 30 <? busyness then "🟢 Predicted reasonable crowd levels for this time."
  else "✅ Predicted to be quiet — great time to visit!".

(** The venue-specific addendum to the tip. *)
Definition venue_tip (venue_type : string) (hour : option Z) : string :=
  match hour with
  | None => ""
  | Some h =>
      if venue_type =? "beach" then
        if in_range 16 h 19 then " 🌅 Popular sunset hours at the beach."
        else if in_range 5 h 7 then " 🌅 Great time for a peaceful sunrise walk."
        else ""
      else if venue_type =? "temple" then
        if in_range 5 h 8 then " 🛕 Morning prayers tend to draw crowds."
        else if in_range 17 h 19 then " 🛕 Evening aarti/prayer rush expected."
        else ""
      else if venue_type =? "restaurant" then
        if in_range 7 h 9 then " 🍳 Peak breakfast hours."
        else if in_range 12 h 14 then " 🍽️ Lunch rush expected."
        else if in_range 19 h 21 then " 🍽️ Dinner rush expected."
        else ""
      else if venue_type =? "viewpoint" then
        if in_range 16 h 19 then " 📸 Sunset viewing — arrive early for best spots."
        else ""
      else ""
  end%string.

Definition curve_of (venue_type : string) : list Z :=
  match assoc _HOURLY_CURVES venue_type with
  | Some curve => curve
  | None => _DEFAULT_CURVE
  end.

(** Returns [(busyness_pct, optimization_tip, venue_type)]. *)
Definition predict_busyness (title : string) (location : option string)
    (hour day_of_week : option Z) : result (Z * string * string) :=
  let venue_type := classify_venue title location in
  let curve := curve_of venue_type in
  (base <- base_busyness curve hour ;;
   base <- apply_day base day_of_week ;;
   let busyness := Z.max 0 (Z.min 100 base) in
   let tip := (band_tip busyness ++ venue_tip venue_type hour)%string in
   Ok (busyness, tip, venue_type))%result.

End crowd_predictor.

(** ** services/elderly_scorer.py *)

Module elderly_scorer.

(** [reasons], the list of explanation strings, is left out of the
    record: no property below reads it. *)
Record VenueScore := {
  name : string;
  crowd_score : Q;
  walkability_score : Q;
  accessibility_score : Q;
  overall_score : Q;
  recommendation : string
}.

Definition LOW_EFFORT_TYPES : list string := [
  "museum"; "cafe"; "restaurant"; "theater"; "cinema"; "library";
  "gallery"; "spa"; "temple"; "church"; "cathedral"; "mall";
  "shopping_mall"; "bakery"; "tea_house"; "hotel"
].

Definition HIGH_EFFORT_TYPES : list string := [
  "hiking"; "trek"; "trail"; "mountain"; "waterfall"; "adventure";
  "sports"; "cycling"; "surfing"; "diving"; "climbing"; "waterpark";
  "amusement_park"; "theme_park"; "zoo"
].

Definition HIGH_EFFORT_KEYWORDS : list string := [
  "hike"; "trek"; "climb"; "stairs"; "steep"; "walk"; "trail";
  "uphill"; "adventure"; "sport"; "cycling"; "surf"
].

Definition compute_crowd_score (busyness_pct : option Q) : Q :=
  match busyness_pct with
  | None => 50
  | Some b => clamp100 (100 - b)
  end%Q.

(** Truthiness of an [Optional[int]]. *)
Definition opt_int_truthy (x : option Z) : bool :=
  match x with Some n => negb (n =? 0) | None => false end.

Definition estimate_steps_from_duration (duration_minutes : option Z)
    (is_outdoor : bool) (venue_type : option string) : Z :=
  match duration_minutes with
  | None => 0
  | Some d =>
      if d =? 0 then 0
      else
        let steps_per_min :=
          if opt_str_truthy venue_type then
            let vtype := lower (or_empty venue_type) in
            if any_in HIGH_EFFORT_TYPES vtype then 90
            else if any_in LOW_EFFORT_TYPES vtype then 20
            else if is_outdoor then 70
            else 30
          else if is_outdoor then 70
          else 30 in
        d * steps_per_min
  end.

Definition estimate_distance_from_duration (duration_minutes : option Z)
    (is_outdoor : bool) (venue_type : option string) : Q :=
  match duration_minutes with
  | None => 0
  | Some d =>
      if d =? 0 then 0
      else
        let hours := (inject_Z d / 60)%Q in
        let km_per_hour :=
          if opt_str_truthy venue_type then
            let vtype := lower (or_empty venue_type) in
            if any_in HIGH_EFFORT_TYPES vtype then 3.5
            else if any_in LOW_EFFORT_TYPES vtype then 0.5
            else if is_outdoor then 3.0
            else 1.5
          else if is_outdoor then 3.0
          else 1.5 in
        round2 (hours * km_per_hour)
  end%Q.

Definition distance_penalty (distance_km : option Q) : Q :=
  match distance_km with
  | Some d =>
      if Qgt_bool d 0 then
        if Qgt_bool d 5 then 35
        else if Qgt_bool d 3 then 25
        else if Qgt_bool d 2 then 15
        else if Qgt_bool d 1 then 8
        else 0
      else 0
  | None => 0
  end%Q.

Definition steps_penalty (estimated_steps : option Z) : Q :=
  match estimated_steps with
  | Some s =>
      if 0 <? s then
        if 8000 <? s then 35
        else if 5000 <? s then 20
        else if 3000 <? s then 10
        else if 1500 <? s then 5
        else 0
      else 0
  | None => 0
  end%Q.

Definition duration_penalty (duration_minutes : option Z) : Q :=
  match duration_minutes with
  | Some d =>
      if d =? 0 then 0
      else if 180 <? d then 20
      else if 120 <? d then 12
      else if 60 <? d then 5
      else 0
  | None => 0
  end%Q.

(** Signed: the adjustment is added to the score. *)
Definition type_adjustment (venue_type : option string) : Q :=
  (if opt_str_truthy venue_type then
     let vtype := lower (or_empty venue_type) in
     if any_in HIGH_EFFORT_TYPES vtype then - (25)
     else if any_in LOW_EFFORT_TYPES vtype then 15
     else 0
   else 0)%Q.

Definition description_penalty (description : option string) : Q :=
  if opt_str_truthy description then
    let desc_lower := lower (or_empty description) in
    let effort_hits := count_hits HIGH_EFFORT_KEYWORDS desc_lower in
    (inject_Z effort_hits * 8)%Q
  else 0%Q.

Definition compute_walkability_score (is_outdoor : bool)
    (duration_minutes : option Z) (venue_type description : option string)
    (distance_km : option Q) (estimated_steps : option Z) : Q :=
  (let score := 70 in
   let score := score - distance_penalty distance_km in
   let score := score - steps_penalty estimated_steps in
   let score := if is_outdoor then score - 10 else score in
   let score := score - duration_penalty duration_minutes in
   let score := score + type_adjustment venue_type in
   let score := score - description_penalty description in
   clamp100 score)%Q.

Definition compute_accessibility_score (is_indoor : bool)
    (venue_type : option string) (has_seating : bool) : Q :=
  (let score := 60 in
   let score := if is_indoor then score + 20 else score in
   let score := if has_seating then score + 10 else score in
   let score :=
     if opt_str_truthy venue_type && mem (lower (or_empty venue_type)) LOW_EFFORT_TYPES
     then score + 10 else score in
   clamp100 score)%Q.

Definition recommendation_tier (overall : Q) : string :=
  if Qle_bool 75 overall then "Highly Recommended"
  else if Qle_bool 55 overall then "Suitable"
  else if Qle_bool 35 overall then "Use Caution"
  else "Not Recommended".

Definition score_venue_for_elderly (name : string) (busyness_pct : option Q)
    (is_outdoor : bool) (duration_minutes : option Z)
    (venue_type description : option string) (has_seating : bool)
    (distance_km : option Q) (estimated_steps : option Z) : VenueScore :=
  let distance_km :=
    match distance_km with
    | None => estimate_distance_from_duration duration_minutes is_outdoor venue_type
    | Some d => d
    end in
  let estimated_steps :=
    match estimated_steps with
    | None => estimate_steps_from_duration duration_minutes is_outdoor venue_type
    | Some s => s
    end in
  let crowd := compute_crowd_score busyness_pct in
  let walk := compute_walkability_score is_outdoor duration_minutes venue_type
                description (Some distance_km) (Some estimated_steps) in
  let access := compute_accessibility_score (negb is_outdoor) venue_type has_seating in
  let overall := (crowd * 0.35 + walk * 0.40 + access * 0.25)%Q in
  {| name := name;
     crowd_score := round1 crowd;
     walkability_score := round1 walk;
     accessibility_score := round1 access;
     overall_score := round1 overall;
     recommendation := recommendation_tier overall |}.

(** The [dict] an activity is passed as: [None] is a key that is absent
    or holds [None]; for ["has_seating"], whose default is [True], a key
    that holds [None] counts as false and is [Some false]. *)
Record activity := {
  a_name : option string;
  a_title : option string;
  a_busyness_pct : option Q;
  a_is_outdoor : option bool;
  a_duration_minutes : option Z;
  a_type : option string;
  a_category : option string;
  a_description : option string;
  a_has_seating : option bool;
  a_distance_km : option Q;
  a_estimated_steps : option Z
}.

(** [a.get("name") or a.get("title", "Unknown")]. *)
Definition name_of (nm title : option string) : string :=
  if opt_str_truthy nm then or_empty nm
  else match title with Some t => t | None => "Unknown" end.

(** [a.get("type") or a.get("category")]. *)
Definition type_of (ty category : option string) : option string :=
  if opt_str_truthy ty then ty else category.

Definition score_activity (a : activity) : VenueScore :=
  score_venue_for_elderly
    (name_of (a_name a) (a_title a))
    (a_busyness_pct a)
    (match a_is_outdoor a with Some b => b | None => false end)
    (a_duration_minutes a)
    (type_of (a_type a) (a_category a))
    (a_description a)
    (match a_has_seating a with Some b => b | None => true end)
    (a_distance_km a)
    (a_estimated_steps a).

Definition rank_activities_for_elderly (activities : list activity) : list VenueScore :=
  let scored := map score_activity activities in
  sort_desc overall_score scored.

End elderly_scorer.

(** ** services/child_scorer.py *)

Module child_scorer.

(** [reasons] is left out, as in [VenueScore]. *)
Record ChildScore := {
  name : string;
  fun_score : Q;
  safety_score : Q;
  engagement_score : Q;
  overall_score : Q;
  recommendation : string;
  emoji : string;
  suggested_alternative : option string
}.

Definition KID_FRIENDLY_TYPES : list string := [
  "amusement_park"; "theme_park"; "zoo"; "aquarium"; "playground";
  "park"; "water_park"; "waterpark"; "beach"; "ice_cream";
  "toy_store"; "carnival"; "circus"; "bowling"; "arcade";
  "trampoline"; "museum"; "science_center"; "planetarium"
].

Definition SUPER_FUN_KEYWORDS : list string := [
  "amusement"; "theme park"; "roller coaster"; "water slide";
  "zoo"; "aquarium"; "playground"; "trampoline"; "carnival";
  "magic show"; "puppet"; "cartoon"; "toy"; "candy";
  "ice cream"; "chocolate"; "fun"; "adventure park"; "splash";
  "go kart"; "bumper car"; "ferris wheel"; "merry-go-round";
  "arcade"; "gaming"; "laser tag"; "mini golf"; "bowling"
].

Definition BORING_FOR_KIDS_KEYWORDS : list string := [
  "wine"; "bar"; "pub"; "nightclub"; "brewery"; "cocktail";
  "spa"; "massage"; "meditation"; "yoga retreat";
  "business"; "conference"; "seminar"; "workshop";
  "art gallery"; "antique"; "heritage walk"
].

Definition RISKY_FOR_KIDS_KEYWORDS : list string := [
  "bungee"; "paragliding"; "scuba"; "deep sea";
  "rock climbing"; "cliff"; "white water"; "rapids";
  "skydiving"; "zip line"; "mountaineering"
].

(** The first entry of each list of [_ALTERNATIVES] is the one used. *)
Definition _ALTERNATIVES : list (string * list string) := [
  ("temple", ["🎨 Visit a children's art workshop nearby";
              "🌳 Explore the temple gardens and feed birds"]);
  ("monument", ["🏰 Take a treasure hunt tour of the monument";
                "📸 Fun photo scavenger hunt around the site"]);
  ("restaurant", ["🍦 Find a kid-friendly cafe with ice cream and games";
                  "🎪 Look for a themed restaurant with play area"]);
  ("market", ["🎈 Visit the toy section or balloon vendors";
              "🍬 Explore candy and snack stalls together"]);
  ("museum", ["🔬 Check if there's a kids' interactive science section";
              "🎮 Look for hands-on exhibits and activity zones"]);
  ("beach", ["🏖️ Build sandcastles and collect seashells";
             "🪁 Fly kites and play beach games"]);
  ("viewpoint", ["🔭 Bring binoculars for a fun spotting game";
                 "📷 Photo challenge — who spots the coolest thing?"]);
  ("station", ["🚂 Watch trains and play the train-spotting game";
               "📚 Bring activity books for the journey"]);
  ("hotel", ["🏊 Check if the hotel has a pool or play area";
             "🎲 Board games and indoor fun at the hotel"])
].

Definition _VENUE_EMOJIS : list (string * string) := [
  ("beach", "🏖️"); ("temple", "🛕"); ("restaurant", "🍽️");
  ("station", "🚂"); ("hotel", "🏨"); ("monument", "🏛️");
  ("park", "🌳"); ("market", "🛍️"); ("viewpoint", "📸");
  ("waterfall", "🌊"); ("zoo", "🦁"); ("aquarium", "🐠");
  ("amusement_park", "🎢"); ("theme_park", "🎡"); ("museum", "🏛️");
  ("playground", "🛝"); ("cinema", "🎬"); ("attraction", "⭐")
].

Definition patterns : list (string * list string) := [
  ("beach", ["beach"; "shore"; "coast"; "seaside"]);
  ("temple", ["temple"; "mandir"; "church"; "mosque"; "shrine"]);
  ("restaurant", ["restaurant"; "cafe"; "food"; "breakfast"; "lunch"; "dinner"; "dosa"; "biryani"]);
  ("station", ["railway"; "station"; "bus stand"; "airport"; "departure"; "arrival"]);
  ("hotel", ["hotel"; "resort"; "check-in"; "lodge"; "stay"]);
  ("monument", ["fort"; "palace"; "memorial"; "tomb"]);
  ("park", ["park"; "garden"; "botanical"]);
  ("market", ["market"; "bazaar"; "shopping"; "mall"]);
  ("viewpoint", ["viewpoint"; "sunset"; "sunrise"; "scenic"; "lookout"]);
  ("waterfall", ["waterfall"; "falls"; "dam"; "lake"])
].

(** [s.replace("_", " ")]. *)
Fixpoint replace_underscore (s : string) : string :=
  match s with
  | EmptyString => EmptyString
  | String c r =>
      String (if Ascii.eqb c "_" then " "%char else c) (replace_underscore r)
  end.

Section Scoring.

(** [KID_FRIENDLY_TYPES] is a Python [set] of strings: the order in which
    [for venue_type in KID_FRIENDLY_TYPES] visits it depends on the
    process's string hashing. [iteration_order] is that order. *)
Variable iteration_order : list string.

Definition _classify_for_kids (title : string) (description : option string) : string :=
  let text := lower (title ++ " " ++ or_empty description)%string in
  match find (fun venue_type =>
                contains (replace_underscore venue_type) text || contains venue_type text)
             iteration_order with
  | Some venue_type => venue_type
  | None =>
      match crowd_predictor.first_pattern text patterns with
      | Some vtype => vtype
      | None => "attraction"
      end
  end.

Definition recommendation_tier (overall : Q) : string :=
  if Qle_bool 75 overall then "Super Fun!"
  else if Qle_bool 55 overall then "Good for Kids"
  else if Qle_bool 35 overall then "Okay"
  else "Not for Kids".

Definition fun_of (text vtype : string) (is_outdoor : bool)
    (duration_minutes : option Z) : Q :=
  (let fun_ := 50 in
   let super_fun_hits := count_hits SUPER_FUN_KEYWORDS text in
   let fun_ := fun_ + inject_Z super_fun_hits * 12 in
   let boring_hits := count_hits BORING_FOR_KIDS_KEYWORDS text in
   let fun_ := fun_ - inject_Z boring_hits * 15 in
   let fun_ := if mem vtype KID_FRIENDLY_TYPES then fun_ + 20 else fun_ in
   let fun_ := if is_outdoor then fun_ + 5 else fun_ in
   let fun_ :=
     match duration_minutes with
     | Some d =>
         if negb (d =? 0)%Z && (d <=? 60)%Z then fun_ + 5
         else if negb (d =? 0)%Z && (120 <? d)%Z then fun_ - 10
         else fun_
     | None => fun_
     end in
   clamp100 fun_)%Q.

Definition safety_of (text vtype : string) (is_outdoor : bool) : Q :=
  (let safety := 70 in
   let risky_hits := count_hits RISKY_FOR_KIDS_KEYWORDS text in
   let safety := safety - inject_Z risky_hits * 20 in
   let safety := if negb is_outdoor then safety + 10 else safety in
   let safety :=
     if mem vtype ["restaurant"; "hotel"; "museum"; "cinema"; "mall"]
     then safety + 10 else safety in
   let safety :=
     if mem vtype ["beach"; "waterfall"; "viewpoint"] then safety - 5 else safety in
   clamp100 safety)%Q.

Definition engagement_of (text vtype : string) : Q :=
  (let engagement := 50 in
   let engagement :=
     if mem vtype ["zoo"; "aquarium"; "amusement_park"; "theme_park"; "playground"; "museum"]
     then engagement + 30
     else if mem vtype ["park"; "beach"] then engagement + 15
     else if mem vtype ["temple"; "monument"] then engagement - 5
     else engagement in
   let engagement :=
     if (0 <? count_hits SUPER_FUN_KEYWORDS text)%Z then engagement + 15 else engagement in
   let engagement :=
     if (0 <? count_hits BORING_FOR_KIDS_KEYWORDS text)%Z then engagement - 20 else engagement in
   clamp100 engagement)%Q.

Definition score_activity_for_child (name : string) (description : option string)
    (is_outdoor : bool) (duration_minutes : option Z)
    (venue_type : option string) : ChildScore :=
  let text := lower (name ++ " " ++ or_empty description)%string in
  let vtype :=
    if opt_str_truthy venue_type then or_empty venue_type
    else _classify_for_kids name description in
  let emoji := match assoc _VENUE_EMOJIS vtype with Some e => e | None => "⭐" end in
  let fun_ := fun_of text vtype is_outdoor duration_minutes in
  let safety := safety_of text vtype is_outdoor in
  let engagement := engagement_of text vtype in
  let overall := clamp100 (fun_ * 0.45 + safety * 0.25 + engagement * 0.30)%Q in
  let emoji := if Qle_bool 75 overall then "🌟" else emoji in
  let alternative :=
    if Qgt_bool 55 overall then
      let alts :=
        match assoc _ALTERNATIVES vtype with
        | Some l => l
        | None => [("🎪 Find a kid-friendly attraction near " ++ name)%string;
                   "🎨 Look for interactive workshops or play areas nearby"]
        end in
      hd_error alts
    else None in
  {| name := name;
     fun_score := round1 fun_;
     safety_score := round1 safety;
     engagement_score := round1 engagement;
     overall_score := round1 overall;
     recommendation := recommendation_tier overall;
     emoji := emoji;
     suggested_alternative := alternative |}.

(** The [dict] an activity is passed as. *)
Record activity := {
  a_name : option string;
  a_title : option string;
  a_description : option string;
  a_is_outdoor : option bool;
  a_duration_minutes : option Z;
  a_type : option string;
  a_category : option string
}.

Definition score_activity (a : activity) : ChildScore :=
  score_activity_for_child
    (elderly_scorer.name_of (a_name a) (a_title a))
    (a_description a)
    (match a_is_outdoor a with Some b => b | None => false end)
    (a_duration_minutes a)
    (elderly_scorer.type_of (a_type a) (a_category a)).

Definition rank_activities_for_children (activities : list activity) : list ChildScore :=
  let scored := map score_activity activities in
  sort_desc overall_score scored.

End Scoring.

(** One of the suggestion dicts of [_KID_DESTINATION_SUGGESTIONS]. *)
Record kid_suggestion := {
  ks_title : string;
  ks_description : string;
  ks_duration : string;
  ks_category : string
}.

Definition _KID_DESTINATION_SUGGESTIONS : list (string * list kid_suggestion) := [
  ("default", [
     {| ks_title := "🎢 Visit an Amusement Park";
        ks_description := "Thrilling rides and games for the whole family!";
        ks_duration := "3-4 hours"; ks_category := "amusement_park" |};
     {| ks_title := "🦁 Explore the Local Zoo";
        ks_description := "Meet amazing animals up close!";
        ks_duration := "2-3 hours"; ks_category := "zoo" |};
     {| ks_title := "🍦 Ice Cream Parlor Hop";
        ks_description := "Try the best ice cream spots in town!";
        ks_duration := "1 hour"; ks_category := "restaurant" |};
     {| ks_title := "🏖️ Beach Fun Day";
        ks_description := "Sandcastles, splash time, and beach games!";
        ks_duration := "2-3 hours"; ks_category := "beach" |};
     {| ks_title := "🎨 Kids Art Workshop";
        ks_description := "Painting, clay, and creative fun!";
        ks_duration := "1-2 hours"; ks_category := "attraction" |};
     {| ks_title := "🌳 Park Picnic & Playground";
        ks_description := "Pack snacks and enjoy the outdoors!";
        ks_duration := "1-2 hours"; ks_category := "park" |}
   ])
].

(** [_KID_DESTINATION_SUGGESTIONS.get(destination.lower(),
    _KID_DESTINATION_SUGGESTIONS["default"])]; the key ["default"] is in
    the table, so the index does not raise. *)
Definition get_kid_suggestions (destination : string) : list kid_suggestion :=
  let default :=
    match assoc _KID_DESTINATION_SUGGESTIONS "default" with
    | Some l => l
    | None => []
    end in
  match assoc _KID_DESTINATION_SUGGESTIONS (lower destination) with
  | Some l => l
  | None => default
  end.

End child_scorer.

(** ** routers/crowd.py *)

Module crowd.

Import besttime crowd_predictor.

Record VenueSearchRequest := {
  query : string;
  num : Z
}.

Record ItineraryActivity := {
  title : string;
  location : option string;
  start_time : option string;
  day_of_week : option Z
}.

Record AnalyzeItineraryRequest := {
  destination : string;
  activities : list ItineraryActivity
}.

(** [bt and bt.is_configured], keeping the client when it holds. *)
Definition available (bt : option BestTimeClient) : option BestTimeClient :=
  match bt with
  | Some self => if is_configured self then Some self else None
  | None => None
  end.

Definition as_list (j : json) : list json :=
  match j with JList l => l | _ => [] end.

Definition extract_venues_from_progress (data : json) : list json :=
  match data with
  | JList l => l
  | JDict d =>
      let venues := match assoc d "venues" with Some v => v | None => JList [] end in
      if truthy venues then as_list venues
      else
        let forecasts := match assoc d "venues_forecasts" with Some v => v | None => JList [] end in
        if truthy forecasts then as_list forecasts
        else
          let venue_info := match assoc d "venue_info" with Some v => v | None => JList [] end in
          if truthy venue_info then as_list venue_info
          else []
  | _ => []
  end.

Definition extract_busyness_from_venue (venue : json) (day_of_week hour : option Z)
  : result (option Q) :=
  (f1 <- get venue "venue_foot_traffic_forecast" JNull ;;
   f2 <- get venue "forecast" JNull ;;
   let ft := py_or f1 (py_or f2 (JDict [])) in
   analysis <- get ft "analysis" (JDict []) ;;
   from_day <-
     match day_of_week with
     | Some _ =>
         day_raw <- get analysis "day_raw" (JList []) ;;
         if truthy day_raw then
           match hour with
           | Some h =>
               if 0 <=? h then
                 n <- json_len day_raw ;;
                 if h <? n then
                   val <- json_index day_raw h ;;
                   match number val with
                   | Some q =>
                       if ge_zero q then (x <- py_float q ;; Ok (Some x)) else Ok None
                   | None => Ok None
                   end
                 else Ok None
               else Ok None
           | None => Ok None
           end
         else Ok None
     | None => Ok None
     end ;;
   match from_day with
   | Some q => Ok (Some q)
   | None =>
       week_raw <- get analysis "week_raw" (JList []) ;;
       from_week <-
         (if truthy week_raw then
            days <- json_iter week_raw ;;
            let all_hours := all_positive_hours days in
            match all_hours with
            | [] => Ok None
            | _ =>
                m <- true_divide (sumQ all_hours) (len all_hours) ;;
                Ok (Some (round1 m))
            end
          else Ok None) ;;
       match from_week with
       | Some q => Ok (Some q)
       | None =>
           v1 <- get venue "venue_forecasted_busyness" JNull ;;
           match number v1 with
           | Some q => (x <- py_float q ;; Ok (Some x))
           | None =>
               v2 <- get venue "busyness" JNull ;;
               match number v2 with
               | Some q => (x <- py_float q ;; Ok (Some x))
               | None =>
                   v3 <- get venue "busy_pct" JNull ;;
                   match number v3 with
                   | Some q => (x <- py_float q ;; Ok (Some x))
                   | None => Ok None
                   end
               end
           end
       end
   end)%result.

(** *** The direct endpoints *)

Definition not_configured_detail : string :=
  "BestTime API keys are not configured. Set BESTTIME_API_KEY_PRIVATE and BESTTIME_API_KEY_PUBLIC in your .env file.".

Definition api_error (e : exn) : exn :=
  HTTPException 502 ("BestTime API error: " ++ str_exn e).

Definition venue_search (req : VenueSearchRequest) (bt : option BestTimeClient) : IO json :=
  match available bt with
  | None => throw (HTTPException 503 not_configured_detail)
  | Some self =>
      try_except (besttime.venue_search self (query req) (num req))
                 (fun e => throw (api_error e))
  end.



Definition get_best_times (venue_id : string) (bt : option BestTimeClient) : IO json :=
  match available bt with
  | None => throw (HTTPException 503 "BestTime API keys not configured.")
  | Some self =>
      try_except (besttime.get_best_times self (JStr venue_id))
                 (fun e => throw (api_error e))
  end.

(** *** analyze-itinerary *)

(** One element of ["analysis"]. [api_available] is the key that only
    the entries of an unconfigured run carry; [venue_info] is kept as the
    JSON object it is. *)
Record AnalysisEntry := {
  activity : string;
  venue_name : json;
  venue_id : json;
  busyness_at_planned_time : json;
  optimization_tip : string;
  venue_info : json;
  api_available : option bool;
  is_predicted : bool
}.

Record AnalyzeItineraryResponse := {
  resp_destination : string;
  analysis : list AnalysisEntry;
  api_configured : bool
}.

(** [int(start_time.split(":")[0])] under [except (ValueError, IndexError)]. *)
Definition parse_hour (start_time : option string) : option Z :=
  if opt_str_truthy start_time then py_int (split_first ":" (or_empty start_time))
  else None.

(** The entry built from the prediction; it is written out three times in
    the source, once with the [api_available] key. *)
Definition predicted_entry (a : ItineraryActivity) (hour : option Z)
    (flag : option bool) : result AnalysisEntry :=
  (p <- predict_busyness (title a) (location a) hour (day_of_week a) ;;
   let '(pred_pct, pred_tip, venue_type) := p in
   Ok {| activity := title a;
         venue_name := JNull;
         venue_id := JNull;
         busyness_at_planned_time := JNum (inject_Z pred_pct);
         optimization_tip := pred_tip;
         venue_info := JDict [("type", JStr venue_type)];
         api_available := flag;
         is_predicted := true |})%result.

Definition live_tip (busyness_at_time : json) : result string :=
  (gt80 <- json_gt busyness_at_time 80 ;;
   if gt80 : bool then Ok "🔴 Very crowded at this time! Consider visiting earlier or later."
   else
     gt60 <- json_gt busyness_at_time 60 ;;
     if gt60 : bool then Ok "🟡 Moderately busy. Plan extra time for queues."
     else
       gt30 <- json_gt busyness_at_time 30 ;;
       if gt30 : bool then Ok "🟢 Reasonable crowd levels."
       else Ok "✅ Great time to visit — minimal crowds!")%result.

(** What the body of the inner [try] leaves in [busyness_at_time]. *)
Definition day_raw_cell (forecast : json) (hour : option Z) : result (option json) :=
  match forecast with
  | JDict _ =>
      (analysis <- get forecast "analysis" (JDict []) ;;
       day_raw <- get analysis "day_raw" (JList []) ;;
       if truthy day_raw then
         match hour with
         | Some h =>
             if 0 <=? h then
               n <- json_len day_raw ;;
               if h <? n then
                 cell <- json_index day_raw h ;;
                 Ok (not_none cell)
               else Ok None
             else Ok None
         | None => Ok None
         end
       else Ok None)%result
  | _ => Ok None
  end.

(** The statement [if busyness_at_time is None and venue_id and
    activity.day_of_week is not None: try: ...]: the value it leaves in
    [busyness_at_time]. *)
Definition forecast_retry (self : BestTimeClient) (a : ItineraryActivity)
    (hour : option Z) (venue_id : json) (busyness_at_time : option json)
  : IO (option json) :=
  match busyness_at_time, truthy venue_id, day_of_week a with
  | None, true, Some day =>
      try_except
        (forecast <- get_forecast_day self venue_id day ;;
         lift (day_raw_cell forecast hour))%io
        (fun _ => ret None)
  | _, _, _ => ret busyness_at_time
  end.

(** The body of the outer [try] once a venue was found. *)
Definition analyze_venue (self : BestTimeClient) (a : ItineraryActivity)
    (hour : option Z) (venue : json) : IO AnalysisEntry :=
  let venue_id := match venue with
                  | JDict d => match assoc d "venue_id" with Some v => v | None => JNull end
                  | _ => JNull
                  end in
  let venue_name := match venue with
                    | JDict d => match assoc d "venue_name" with Some v => v | None => JStr "Unknown" end
                    | _ => JStr "Unknown"
                    end in
  (extracted <- lift (extract_busyness_from_venue venue (day_of_week a) hour) ;;
   let busyness_at_time := option_map JNum extracted in
   busyness_at_time <- forecast_retry self a hour venue_id busyness_at_time ;;
   tip_pred <-
     match busyness_at_time with
     | Some b =>
         tip <- lift (live_tip b) ;;
         ret (b, tip, false)
     | None =>
         p <- lift (predict_busyness (title a) (location a) hour (day_of_week a)) ;;
         let '(pred_pct, pred_tip, _) := p in
         ret (JNum (inject_Z pred_pct), pred_tip, true)
     end ;;
   let '(busyness, tip, predicted) := tip_pred in
   ret {| activity := title a;
          venue_name := venue_name;
          venue_id := venue_id;
          busyness_at_planned_time := busyness;
          optimization_tip := tip;
          venue_info :=
            JDict [("address", match venue with
                               | JDict d => match assoc d "venue_address" with Some v => v | None => JNull end
                               | _ => JNull
                               end);
                   ("type", match venue with
                            | JDict d => match assoc d "venue_type" with Some v => v | None => JNull end
                            | _ => JNull
                            end)];
          api_available := None;
          is_predicted := predicted |})%io.

Definition search_query_of (title : string) (location : option string)
    (destination : string) : string :=
  if opt_str_truthy location then (title ++ " " ++ or_empty location)%string
  else (title ++ " in " ++ destination)%string.

(** The body of the [for] loop of [analyze_itinerary]. *)
Definition analyze_activity (bt : option BestTimeClient) (destination : string)
    (a : ItineraryActivity) : IO AnalysisEntry :=
  match available bt with
  | None =>
      let hour := parse_hour (start_time a) in
      lift (predicted_entry a hour (Some false))
  | Some self =>
      let search_query := search_query_of (title a) (location a) destination in
      let hour := parse_hour (start_time a) in
      try_except
        (search_data <- besttime.venue_search self search_query 1 ;;
         let venues := extract_venues_from_progress search_data in
         match venues with
         | [] => lift (predicted_entry a hour None)
         | venue :: _ => analyze_venue self a hour venue
         end)%io
        (fun _ => lift (predicted_entry a hour None))
  end.

Definition analyze_itinerary (req : AnalyzeItineraryRequest)
    (bt : option BestTimeClient) : IO AnalyzeItineraryResponse :=
  (results <- for_each (analyze_activity bt (destination req)) (activities req) ;;
   ret {| resp_destination := destination req;
          analysis := results;
          api_configured := match available bt with Some _ => true | None => false end |})%io.

End crowd.

(** ** routers/elderly.py *)

Module elderly.

Import besttime crowd_predictor elderly_scorer.

Record ElderlyActivity := {
  title : string;
  description : option string;
  location : option string;
  is_outdoor : bool;
  duration_minutes : option Z;
  category : option string;
  day_of_week : option Z;
  start_time : option string
}.

Record ElderlyOptimizeRequest := {
  destination : string;
  activities : list ElderlyActivity
}.

Record ElderlySearchRequest := {
  search_destination : string;
  types : option (list string);
  num : Z
}.

(** The unrounded weekly mean both endpoints compute from an
    ["analysis"] object: [None] when it has no positive value. *)
Definition weekly_mean (analysis : json) : result (option Q) :=
  (week_raw <- get analysis "week_raw" (JList []) ;;
   if truthy week_raw then
     days <- json_iter week_raw ;;
     let all_hours := all_positive_hours days in
     match all_hours with
     | [] => Ok None
     | _ => Ok (Some (mean all_hours))
     end
   else Ok None)%result.

(** [l[:n]]. *)
Definition slice_to {A} (l : list A) (n : Z) : list A :=
  if n <? 0 then firstn (Z.to_nat (len l + n)) l else firstn (Z.to_nat n) l.

(** *** suggestions *)

(** The dict appended to [all_venues]; the two values read from the
    service stay JSON until the scorer uses them. *)
Record suggestion_venue := {
  sv_name : json;
  sv_busyness_pct : option Q;
  sv_type : string;
  sv_description : json
}.

Definition venue_busyness (v : json) : result (option Q) :=
  (forecast <- get v "venue_foot_traffic_forecast" JNull ;;
   if truthy forecast && is_dict forecast then
     analysis <- get forecast "analysis" (JDict []) ;;
     weekly_mean analysis
   else Ok None)%result.

(** The loop over the venues of one search; an exception ends it and
    leaves what was appended. *)
Fixpoint append_venues (venue_type : string) (venues : list json)
    (all_venues : list suggestion_venue) : list suggestion_venue :=
  match venues with
  | [] => all_venues
  | v :: rest =>
      match v with
      | JDict d =>
          match venue_busyness v with
          | Ok busyness =>
              append_venues venue_type rest
                (all_venues ++
                 [{| sv_name := match assoc d "venue_name" with Some n => n | None => JStr "Unknown" end;
                     sv_busyness_pct := busyness;
                     sv_type := venue_type;
                     sv_description := match assoc d "venue_type" with Some t => t | None => JStr "" end |}])
          | Raise _ => all_venues
          end
      | _ => append_venues venue_type rest all_venues
      end
  end.

(** The loop over the search types. *)
Fixpoint search_all (self : BestTimeClient) (dest : string)
    (search_types : list string) (all_venues : list suggestion_venue)
  : IO (list suggestion_venue) :=
  match search_types with
  | [] => ret all_venues
  | venue_type :: rest =>
      let query := (venue_type ++ " in " ++ dest)%string in
      (all_venues' <-
         try_except
           (data <- besttime.venue_search self query 3 ;;
            ret (append_venues venue_type (crowd.extract_venues_from_progress data) all_venues))
           (fun _ => ret all_venues) ;;
       search_all self dest rest all_venues')%io
  end.

(** What the scorer makes of the dict: a [description] that is truthy and
    not a string has no [lower], a [name] that is truthy and not a string
    is refused by the [VenueScore] model. *)
Definition suggestion_activity (v : suggestion_venue) : result activity :=
  (desc <- match sv_description v with
           | JStr s => Ok (Some s)
           | d => if truthy d then raise AttributeError "object has no attribute 'lower'"
                  else Ok None
           end ;;
   nm <- match sv_name v with
         | JStr s => Ok (Some s)
         | n => if truthy n then raise ValueError "name: Input should be a valid string"
                else Ok None
         end ;;
   Ok {| a_name := nm; a_title := None;
         a_busyness_pct := sv_busyness_pct v;
         a_is_outdoor := Some false;
         a_duration_minutes := Some 60;
         a_type := Some (sv_type v); a_category := None;
         a_description := desc;
         a_has_seating := Some true;
         a_distance_km := None;
         a_estimated_steps := None |})%result.

Definition default_types : list string :=
  ["museum"; "cafe"; "restaurant"; "temple"; "garden"; "gallery"].

Definition get_elderly_suggestions (req : ElderlySearchRequest)
    (bt : option BestTimeClient) : IO (list VenueScore) :=
  match crowd.available bt with
  | None =>
      throw (HTTPException 503
               "BestTime API keys not configured. Elderly suggestions require crowd data.")
  | Some self =>
      let search_types :=
        match types req with
        | Some (t :: ts) => t :: ts
        | _ => default_types
        end in
      (all_venues <- search_all self (search_destination req) search_types [] ;;
       match all_venues with
       | [] => throw (HTTPException 404 "No venues found for the given destination")
       | _ =>
           acts <- lift (for_all suggestion_activity all_venues) ;;
           let scored := rank_activities_for_elderly acts in
           ret (slice_to scored (num req))
       end)%io
  end.

(** *** optimize-itinerary *)

(** [suggestions], the list of advice strings, is left out. *)
Record OptimizeResponse := {
  resp_destination : string;
  scored_activities : list VenueScore;
  overall_elderly_score : Q;
  api_configured : bool
}.

(** The body of the inner [try]: the cell of the day forecast. *)
Definition planned_cell (forecast : json) (start_time : option string)
  : result (option json) :=
  if is_dict forecast && opt_str_truthy start_time then
    match py_int (split_first ":" (or_empty start_time)) with
    | None => raise ValueError "invalid literal for int()"
    | Some hour =>
        (analysis <- get forecast "analysis" (JDict []) ;;
         day_raw <- get analysis "day_raw" (JList []) ;;
         if truthy day_raw && (0 <=? hour) then
           n <- json_len day_raw ;;
           if hour <? n then
             cell <- json_index day_raw hour ;;
             Ok (not_none cell)
           else Ok None
         else Ok None)%result
    end
  else Ok None.

(** The weekly fallback read from the venue found by the search. *)
Definition venue_weekly_mean (venue : json) : result (option json) :=
  (f <- get venue "venue_foot_traffic_forecast" (JDict []) ;;
   let ft := py_or f (JDict []) in
   analysis <- (if is_dict ft then get ft "analysis" (JDict []) else Ok (JDict [])) ;;
   m <- weekly_mean analysis ;;
   Ok (option_map JNum m))%result.

(** The value of [busyness] after the outer [try] statement. *)
Definition live_busyness (self : BestTimeClient) (dest : string)
    (a : ElderlyActivity) : IO (option json) :=
  let search_query := crowd.search_query_of (title a) (location a) dest in
  try_except
    (data <- besttime.venue_search self search_query 1 ;;
     match crowd.extract_venues_from_progress data with
     | [] => ret None
     | venue :: _ =>
         match venue with
         | JDict d =>
             let venue_id := match assoc d "venue_id" with Some v => v | None => JNull end in
             busyness <-
               match truthy venue_id, day_of_week a with
               | true, Some day =>
                   try_except
                     (forecast <- get_forecast_day self venue_id day ;;
                      lift (planned_cell forecast (start_time a)))
                     (fun _ => ret None)
               | _, _ => ret None
               end ;;
             match busyness with
             | Some b => ret (Some b)
             | None => lift (venue_weekly_mean venue)
             end
         | _ => ret None
         end
     end)%io
    (fun _ => ret None).

(** The dict appended to [enriched_activities]; [busyness_pct] is what
    the service or the predictor gave. *)
Record enriched_activity := {
  e_name : string;
  e_busyness_pct : json;
  e_is_outdoor : bool;
  e_duration_minutes : option Z;
  e_type : option string;
  e_description : option string;
  e_distance_km : Q;
  e_estimated_steps : Z
}.

(** The body of the [for] loop of [optimize_itinerary]. *)
Definition enrich (bt : option BestTimeClient) (dest : string)
    (a : ElderlyActivity) : IO enriched_activity :=
  (busyness <-
     match crowd.available bt with
     | Some self =>
         if opt_str_truthy (location a) || str_nonempty (title a)
         then live_busyness self dest a
         else ret None
     | None => ret None
     end ;;
   busyness <-
     match busyness with
     | Some b => ret b
     | None =>
         let hour := crowd.parse_hour (start_time a) in
         p <- lift (predict_busyness (title a) (location a) hour (day_of_week a)) ;;
         let '(pred_pct, _, _) := p in
         ret (JNum (inject_Z pred_pct))
     end ;;
   ret {| e_name := title a;
          e_busyness_pct := busyness;
          e_is_outdoor := is_outdoor a;
          e_duration_minutes := duration_minutes a;
          e_type := category a;
          e_description := description a;
          e_distance_km :=
            estimate_distance_from_duration (duration_minutes a) (is_outdoor a) (category a);
          e_estimated_steps :=
            estimate_steps_from_duration (duration_minutes a) (is_outdoor a) (category a) |})%io.

(** What the scorer makes of the dict: [100 - busyness_pct] is a
    [TypeError] unless [busyness_pct] is a number. *)
Definition enriched_to_activity (e : enriched_activity) : result activity :=
  match number (e_busyness_pct e) with
  | None => raise TypeError "unsupported operand type(s) for -"
  | Some b =>
      Ok {| a_name := Some (e_name e); a_title := None;
            a_busyness_pct := Some b;
            a_is_outdoor := Some (e_is_outdoor e);
            a_duration_minutes := e_duration_minutes e;
            a_type := e_type e; a_category := None;
            a_description := e_description e;
            a_has_seating := Some true;
            a_distance_km := Some (e_distance_km e);
            a_estimated_steps := Some (e_estimated_steps e) |}
  end.

(** [round(sum(s.overall_score for s in scored) / len(scored), 1) if scored else 0]. *)
Definition overall_of (scores : list Q) : Q :=
  match scores with
  | [] => 0
  | _ => round1 (mean scores)
  end.

Definition optimize_itinerary (req : ElderlyOptimizeRequest)
    (bt : option BestTimeClient) : IO OptimizeResponse :=
  (enriched_activities <- for_each (enrich bt (destination req)) (activities req) ;;
   acts <- lift (for_all enriched_to_activity enriched_activities) ;;
   let scored := rank_activities_for_elderly acts in
   let overall_score := overall_of (map overall_score scored) in
   ret {| resp_destination := destination req;
          scored_activities := scored;
          overall_elderly_score := overall_score;
          api_configured := match crowd.available bt with Some _ => true | None => false end |})%io.

End elderly.

(** ** routers/child.py *)

Module child.

Import child_scorer.

Record ChildActivity := {
  title : string;
  description : option string;
  location : option string;
  is_outdoor : bool;
  duration_minutes : option Z;
  category : option string
}.

Record ChildOptimizeRequest := {
  destination : string;
  activities : list ChildActivity
}.

(** [suggestions] and [kid_activity_suggestions] are left out. *)
Record ChildOptimizeResponse := {
  resp_destination : string;
  scored_activities : list ChildScore;
  overall_child_score : Q
}.

Definition enrich (a : ChildActivity) : activity :=
  {| a_name := Some (title a); a_title := None;
     a_description := description a;
     a_is_outdoor := Some (is_outdoor a);
     a_duration_minutes := duration_minutes a;
     a_type := category a; a_category := None |}.

Definition optimize_itinerary_for_children (iteration_order : list string)
    (req : ChildOptimizeRequest) : ChildOptimizeResponse :=
  let enriched := map enrich (activities req) in
  let scored := rank_activities_for_children iteration_order enriched in
  let overall_score := elderly.overall_of (map overall_score scored) in
  {| resp_destination := destination req;
     scored_activities := scored;
     overall_child_score := overall_score |}.

(** The list [suggestions] the handler builds from the ranked scores. *)
Definition suggestions_of (scored : list ChildScore) : list string :=
  let boring := filter (fun s => Qgt_bool 40 (overall_score s)) scored in
  let okay := filter (fun s => Qle_bool 40 (overall_score s)
                               && Qgt_bool 55 (overall_score s)) scored in
  let fun_ := filter (fun s => Qle_bool 70 (overall_score s)) scored in
  let names l := join ", " (map name (firstn 3 l)) in
  (match fun_ with
   | [] => []
   | _ => [("🎉 " ++ str_of_int (len fun_) ++ " activities are super fun for kids: "
            ++ names fun_)%string]
   end)
  ++ (match boring with
      | [] => []
      | _ => [("😴 " ++ str_of_int (len boring) ++ " activities might bore kids: "
               ++ names boring)%string;
              ("💡 Click " ++ dquote ++ "Make it Fun!" ++ dquote
               ++ " to get kid-friendly alternatives.")%string]
      end)
  ++ (match okay with
      | [] => []
      | _ => [("👍 " ++ str_of_int (len okay)
               ++ " activities are okay but could be more fun.")%string]
      end)
  ++ ["🍦 Don't forget snack breaks every 1-2 hours!";
      "🧴 Pack sunscreen, hats, and water for outdoor activities.";
      "📱 Download offline games and movies for travel segments."].

End child.

(** * Vocabulary of the properties

    Notions the statements below are worded in: none of them is code of
    the backend. *)

Section ElderlyTerms.

Import elderly_scorer.

(** Membership of the lowercased type in the low-effort set, as the
    accessibility score tests it. *)
Definition is_low_effort (venue_type : option string) : bool :=
  opt_str_truthy venue_type && mem (lower (or_empty venue_type)) LOW_EFFORT_TYPES.

End ElderlyTerms.

Section SortingTerms.

Context {A : Type}.
Variable key : A -> Q.

(** [desc a b]: [a] may stand before [b] in a list sorted by falling key. *)
Definition desc (a b : A) : Prop := (key b <= key a)%Q.

(** The elements whose key equals [q]. *)
Definition with_key (q : Q) (l : list A) : list A :=
  filter (fun a => Qeq_bool (key a) q) l.

End SortingTerms.

Section PredictorTerms.

Import crowd_predictor.

(** The tags [classify_venue] can return. *)
Definition venue_types : list string := map fst _VENUE_PATTERNS.

(** The busyness figure as a function of the venue type. *)
Definition busyness_for (venue_type : string) (hour day_of_week : option Z) : result Z :=
  (base <- base_busyness (curve_of venue_type) hour ;;
   base <- apply_day base day_of_week ;;
   Ok (Z.max 0 (Z.min 100 base)))%result.

(** The hours and days that matter: absent, or one of the values in range. *)
Definition hours : list (option Z) :=
  None :: map (fun n => Some (Z.of_nat n)) (seq 0 24).

Definition days : list (option Z) :=
  None :: map (fun n => Some (Z.of_nat n)) (seq 0 7).

Definition is_ok {A} (r : result A) : bool :=
  match r with Ok _ => true | Raise _ => false end.

(** The Sunday figure is not below the Monday figure, whatever the type
    and the hour. *)
Definition day_law (vt : string) (h : option Z) : bool :=
  match busyness_for vt h (Some 0), busyness_for vt h (Some 6) with
  | Ok monday, Ok sunday => monday <=? sunday
  | _, _ => false
  end.

End PredictorTerms.

Section PollLoopTerms.

Import besttime.

(** The events the log gained are the service's own answers. *)
Inductive answered (svc : service) : list event -> list event -> Prop :=
| answered_nil w : answered svc w []
| answered_sleep w s evs :
    answered svc (w ++ [EvSleep s]) evs -> answered svc w (EvSleep s :: evs)
| answered_http w req evs :
    answered svc (w ++ [EvHttp req (svc w req)]) evs ->
    answered svc w (EvHttp req (svc w req) :: evs).

(** A poll reports the finished flag: it succeeded, its payload is a JSON
    object, and the object holds a true ["job_finished"]. *)
Definition finished (r : result json) : bool :=
  match r with
  | Ok (JDict fields) =>
      match assoc fields "job_finished" with
      | Some flag => truthy flag
      | None => false
      end
  | _ => false
  end.

Definition unfinished (r : result json) : Prop := finished r = false.

(** The payload of the last poll that succeeded, [init] when none did. *)
Definition last_payload (init : option json) (rs : list (result json)) : option json :=
  fold_left (fun acc r => match r with Ok pd => Some pd | Raise _ => acc end) rs init.

(** The log of a run of polls with outcomes [rs]: before each poll the
    client sleeps 2 seconds. *)
Definition poll_events (job_id collection_id : json) (rs : list (result json)) : list event :=
  flat_map (fun r => [EvSleep 2; EvHttp (GetVenuesProgress job_id collection_id) r]) rs.

(** What [poll_loop] returns and logs, in terms of the outcomes [rs] of the
    polls it made: either the last poll is the first finished one and its
    payload is returned, or all polls were made, none finished, and the
    last payload seen (else [start_data]) is returned. *)
Definition poll_outcome (budget : nat) (init : option json) (start_data : json)
    (rs : list (result json)) (returned : json) : Prop :=
  (exists pre p, rs = pre ++ [Ok p] /\ Forall unfinished pre
                 /\ finished (Ok p) = true /\ returned = p)
  \/ (length rs = budget /\ Forall unfinished rs
      /\ returned = match last_payload init rs with Some p => p | None => start_data end).

End PollLoopTerms.

Section ExtractionTerms.

Import crowd.





















End ExtractionTerms.

Section AnalysisTerms.

Import besttime crowd_predictor crowd.

(** What an entry of the analysis says about where its figure comes
    from: a predicted entry carries the predictor's figure and tip for
    the activity; another one carries a number read from the service. *)
Definition marks_provenance (a : ItineraryActivity) (hour : option Z)
    (e : AnalysisEntry) : Prop :=
  activity e = title a
  /\ if is_predicted e
     then exists b tip,
         predict_busyness (title a) (location a) hour (day_of_week a)
         = Ok (b, tip, classify_venue (title a) (location a))
         /\ 0 <= b <= 100
         /\ busyness_at_planned_time e = JNum (inject_Z b)
         /\ optimization_tip e = tip
     else exists q, number (busyness_at_planned_time e) = Some q.

Definition is_some {A} (x : option A) : bool :=
  match x with Some _ => true | None => false end.

(** The entries of a run that takes the prediction path throughout. *)
Definition predicted_analysis (acts : list ItineraryActivity) : result (list AnalysisEntry) :=
  for_all (fun a => predicted_entry a (parse_hour (start_time a)) (Some false)) acts.

End AnalysisTerms.

Section GateTerms.

Import besttime crowd.

(** The gate as the specification words it: both credentials present and
    neither equal to one of the known placeholder values. *)
Definition spec_is_configured (placeholders : list string) (self : BestTimeClient) : bool :=
  str_nonempty (api_key_private self) && str_nonempty (api_key_public self)
  && negb (mem (api_key_private self) placeholders)
  && negb (mem (api_key_public self) placeholders).

(** The placeholder values the code knows of. *)
Definition known_placeholders : list string := ["your_private_key"; "your_public"].

(** A client with real-looking keys, the private one containing the marker. *)
Definition marked_client : BestTimeClient :=
  {| api_key_private := "pk-your_private_key-7c1d";
     api_key_public := "pub_e94a" |}.

Fixpoint xs (n : nat) : string :=
  match n with
  | O => EmptyString
  | S k => String "x" (xs k)
  end.

Definition longest (l : list string) : nat :=
  fold_right (fun s m => Nat.max (String.length s) m) O l.

End GateTerms.


Definition live_client : besttime.BestTimeClient :=
  {| besttime.api_key_private := "pri_7c1d";
     besttime.api_key_public := "pub_e94a" |}.

Definition job_started : json :=
  JDict [("job_id", JStr "job-1"); ("collection_id", JStr "col-1")].

Definition timeout_error : exn := PyExn HTTPError "503 Service Unavailable".

(** A service that is down. *)
Definition down_service : service := fun _ _ => Raise timeout_error.


Definition half_done : json :=
  JDict [("job_finished", JBool false); ("count_completed", JNum 1); ("count_total", JNum 3)].

Definition all_done : json :=
  JDict [("job_finished", JBool true); ("count_completed", JNum 3); ("count_total", JNum 3);
         ("venues", JList [JDict [("venue_id", JStr "ven-1"); ("venue_name", JStr "Marina Beach")]])].

(** A service whose first poll fails, whose second is under way and whose
    third is finished. *)
Definition flaky_service : service :=
  fun w req =>
    match req with
    | PostVenuesSearch _ _ _ => Ok job_started
    | GetVenuesProgress _ _ =>
        if (List.length w <? 3)%nat then Raise timeout_error
        else if (List.length w <? 5)%nat then Ok half_done
        else Ok all_done
    | _ => Raise timeout_error
    end.

(** A service whose jobs start and never finish; every other poll fails. *)
Definition stuck_service : service :=
  fun w req =>
    match req with
    | PostVenuesSearch _ _ _ => Ok job_started
    | GetVenuesProgress _ _ =>
        if Nat.even (List.length w / 2) then Raise timeout_error else Ok half_done
    | _ => Raise timeout_error
    end.

(** A service that finds one venue and whose day forecast holds text
    where a percentage belongs. *)
Definition text_cell_service : service :=
  fun _ req =>
    match req with
    | PostVenuesSearch _ _ _ => Ok job_started
    | GetVenuesProgress _ _ => Ok all_done
    | GetForecastsDaily _ _ _ =>
        Ok (JDict [("analysis", JDict [("day_raw", JList [JStr "busy"; JNum 40])])])
    | _ => Raise timeout_error
    end.

Section BoundaryTerms.

Import besttime crowd.


End BoundaryTerms.

Section OverallTerms.

Import besttime.


End OverallTerms.

Section ElderlyRangesTerms.

Import elderly_scorer.

(** The band of reported scores a recommendation tier stands for. *)
Definition tier_floor (tier : string) : Q :=
  if String.eqb tier "Highly Recommended" then 75
  else if String.eqb tier "Suitable" then 55
  else if String.eqb tier "Use Caution" then 35
  else 0%Q.

Definition tier_ceiling (tier : string) : Q :=
  if String.eqb tier "Highly Recommended" then 100
  else if String.eqb tier "Suitable" then 75
  else if String.eqb tier "Use Caution" then 55
  else 35%Q.

(** The weighted sum before rounding. *)
Definition elderly_overall (crowd walk access : Q) : Q :=
  (crowd * 0.35 + walk * 0.40 + access * 0.25)%Q.

End ElderlyRangesTerms.

Section PredictorMoreTerms.

Import crowd_predictor.

(** The seven weekdays. *)
Definition week : list Z := map Z.of_nat (seq 0 7).

(** For a type and an hour, the figure never falls from one weekday to a
    later one. *)
Definition week_law (vt : string) (h : option Z) : bool :=
  forallb (fun d1 =>
    forallb (fun d2 =>
      if d1 <=? d2 then
        match busyness_for vt h (Some d1), busyness_for vt h (Some d2) with
        | Ok earlier, Ok later => earlier <=? later
        | _, _ => false
        end
      else true) week) week.

End PredictorMoreTerms.

Section CostsTerms.

Import besttime.

(** The seconds slept in a stretch of the log. *)
Fixpoint sleep_seconds (evs : list event) : Z :=
  match evs with
  | [] => 0
  | EvSleep s :: r => s + sleep_seconds r
  | EvHttp _ _ :: r => sleep_seconds r
  end.

(** The HTTP exchanges in a stretch of the log. *)
Fixpoint http_count (evs : list event) : Z :=
  match evs with
  | [] => 0
  | EvSleep _ :: r => http_count r
  | EvHttp _ _ :: r => 1 + http_count r
  end.

(** [costs m secs calls]: whatever the service answers and whether [m]
    returns or raises, it only appends to the log, sleeping at most [secs]
    seconds and making at most [calls] exchanges. *)
Definition costs {A} (m : IO A) (secs calls : Z) : Prop :=
  forall svc w, exists added,
    snd (m svc w) = w ++ added
    /\ sleep_seconds added <= secs /\ http_count added <= calls.

End CostsTerms.

Section ElderlyRouterTerms.

Import besttime elderly_scorer elderly.

(** The types the suggestion search looks for. *)
Definition search_types_of (req : ElderlySearchRequest) : list string :=
  match types req with
  | Some (t :: ts) => t :: ts
  | _ => default_types
  end.

(** The venue searches started in a stretch of the log: the query and
    the number of venues of each job-start request, in order. *)
Fixpoint searches_started (evs : list event) : list (string * Z) :=
  match evs with
  | [] => []
  | EvHttp (PostVenuesSearch _ q n) _ :: r => (q, n) :: searches_started r
  | _ :: r => searches_started r
  end.

(** [starts m qs]: whatever the service answers and whether [m] returns
    or raises, it only appends to the log, and the searches it starts
    are [qs]. *)
Definition starts {A} (m : IO A) (qs : list (string * Z)) : Prop :=
  forall svc w, exists added,
    snd (m svc w) = w ++ added /\ searches_started added = qs.

(** [returns m]: [m] does not raise. *)
Definition returns {A} (m : IO A) : Prop :=
  forall svc w, exists a, fst (m svc w) = Ok a.

(** The query the suggestion search makes for a type. *)
Definition suggestion_query (req : ElderlySearchRequest) (venue_type : string)
  : string * Z :=
  ((venue_type ++ " in " ++ search_destination req)%string, 3).

End ElderlyRouterTerms.

Section ChildRouterTerms.

Import child_scorer child.

(** The hint that accompanies the list of boring activities. *)
Definition make_it_fun_hint : string :=
  ("💡 Click " ++ dquote ++ "Make it Fun!" ++ dquote
   ++ " to get kid-friendly alternatives.")%string.

(** The three reminders every answer ends with. *)
Definition fixed_reminders : list string :=
  ["🍦 Don't forget snack breaks every 1-2 hours!";
   "🧴 Pack sunscreen, hats, and water for outdoor activities.";
   "📱 Download offline games and movies for travel segments."].

End ChildRouterTerms.

Section StartTimesTerms.

Import besttime crowd.

(** A service that answers a search without naming a job. *)
Definition jobless_service : service :=
  fun _ req =>
    match req with
    | PostVenuesSearch _ _ _ => Ok (JDict [("status", JStr "Error"); ("message", JStr "quota")])
    | _ => Raise timeout_error
    end.

(** The hour of a clock time, written with two digits. *)
Definition two_digits (h : Z) : string :=
  if h <? 10 then ("0" ++ str_of_int h)%string else str_of_int h.

Fixpoint no_colon (s : string) : bool :=
  match s with
  | EmptyString => true
  | String c r => negb (Ascii.eqb c ":") && no_colon r
  end.

End StartTimesTerms.

(** * Properties *)

(** ** Arithmetic of the Python layer *)

Lemma clamp100_bounds (x : Q) : (0 <= clamp100 x /\ clamp100 x <= 100)%Q.
Proof.
  unfold clamp100. split.
  - apply Q.le_max_l.
  - apply Q.max_lub; [lra | apply Q.le_min_l].
Qed.

Lemma clamp100_mono (x y : Q) : (x <= y -> clamp100 x <= clamp100 y)%Q.
Proof.
  intro H. unfold clamp100.
  apply Q.max_le_compat_l, Q.min_le_compat_l, H.
Qed.

Lemma clamp100_id (x : Q) : (0 <= x -> x <= 100 -> clamp100 x == x)%Q.
Proof.
  intros H0 H1. unfold clamp100.
  rewrite (Q.min_r _ _ H1). apply Q.max_r, H0.
Qed.

#[export] Instance clamp100_comp : Proper (Qeq ==> Qeq) clamp100.
Proof.
  intros x y H. unfold clamp100. now rewrite H.
Qed.

#[export] Instance round_q_comp : Proper (Qeq ==> eq) round_q.
Proof.
  intros x y H. unfold round_q.
  rewrite (Qfloor_comp _ _ H).
  assert (E : ((x - inject_Z (Qfloor y)) * 2 ?= 1)%Q = ((y - inject_Z (Qfloor y)) * 2 ?= 1)%Q)
    by (apply Qcompare_comp; [now rewrite H | reflexivity]).
  now rewrite E.
Qed.

#[export] Instance round_to_comp (scale : positive) : Proper (Qeq ==> eq) (round_to scale).
Proof.
  intros x y H. unfold round_to.
  assert (E : (x * (Z.pos scale # 1) == y * (Z.pos scale # 1))%Q) by now rewrite H.
  now rewrite (round_q_comp _ _ E).
Qed.

Lemma Qgt_bool_true (x y : Q) : Qgt_bool x y = true <-> (y < x)%Q.
Proof.
  unfold Qgt_bool. rewrite negb_true_iff. split; intro H.
  - apply Qnot_le_lt. intro L. apply Qle_bool_iff in L. congruence.
  - destruct (Qle_bool x y) eqn:E; [|reflexivity].
    apply Qle_bool_iff in E. exfalso. exact (Qlt_not_le _ _ H E).
Qed.

Lemma Qgt_bool_false (x y : Q) : Qgt_bool x y = false <-> (x <= y)%Q.
Proof.
  unfold Qgt_bool. rewrite negb_false_iff. apply Qle_bool_iff.
Qed.

(** ** Elderly scorer *)

Section Elderly.

Import elderly_scorer.

(** The step-penalty table never decreases with the number of steps. *)
Lemma steps_penalty_mono (s1 s2 : Z) :
  s1 <= s2 -> (steps_penalty (Some s1) <= steps_penalty (Some s2))%Q.
Proof.
  intro H. unfold steps_penalty.
  repeat match goal with
         | |- context [?a <? ?b] => destruct (Z.ltb_spec a b)
         end; try lia; lra.
Qed.

(** C7. Two calls of [compute_walkability_score] that differ only in
    [estimated_steps]: the one with more steps does not score higher. *)
Theorem walkability_monotone_in_steps
    (is_outdoor : bool) (duration_minutes : option Z)
    (venue_type description : option string) (distance_km : option Q)
    (s1 s2 : Z) :
  s1 <= s2 ->
  Qle (compute_walkability_score is_outdoor duration_minutes venue_type description
         distance_km (Some s2))
      (compute_walkability_score is_outdoor duration_minutes venue_type description
         distance_km (Some s1)).
Proof.
  intro H. unfold compute_walkability_score. cbv zeta.
  apply clamp100_mono.
  pose proof (steps_penalty_mono s1 s2 H) as P.
  destruct is_outdoor; lra.
Qed.

Lemma walkability_monotone_in_steps_witness :
  Qle (compute_walkability_score true (Some 150) None None (Some 7.5%Q) (Some 10500))
      (compute_walkability_score true (Some 150) None None (Some 7.5%Q) (Some 1000)).
Proof.
  apply (walkability_monotone_in_steps true (Some 150) None None (Some 7.5%Q) 1000 10500).
  lia.
Defined.

(** C10. [compute_accessibility_score] is 60, plus 20 indoors, plus 10 with
    seating, plus 10 for a low-effort type; so it lies between 60 and 100. *)
Theorem accessibility_score_value
    (is_indoor : bool) (venue_type : option string) (has_seating : bool) :
  (compute_accessibility_score is_indoor venue_type has_seating
   == 60 + (if is_indoor then 20 else 0) + (if has_seating then 10 else 0)
         + (if is_low_effort venue_type then 10 else 0)
   /\ 60 <= compute_accessibility_score is_indoor venue_type has_seating
   /\ compute_accessibility_score is_indoor venue_type has_seating <= 100)%Q.
Proof.
  unfold compute_accessibility_score, is_low_effort. cbv zeta.
  destruct is_indoor, has_seating,
    (opt_str_truthy venue_type && mem (lower (or_empty venue_type)) LOW_EFFORT_TYPES);
    (split; [|split]); try rewrite clamp100_id; lra.
Qed.

End Elderly.

(** ** The model of [list.sort(key=..., reverse=True)] *)

Section Sorting.

Context {A : Type}.
Variable key : A -> Q.

Lemma insert_desc_perm (x : A) (l : list A) :
  Permutation (insert_desc key x l) (x :: l).
Proof.
  induction l as [|y r IH]; simpl.
  - apply Permutation_refl.
  - destruct (Qgt_bool (key y) (key x)).
    + eapply perm_trans; [apply perm_skip, IH | apply perm_swap].
    + apply Permutation_refl.
Qed.

Lemma sort_desc_perm (l : list A) : Permutation (sort_desc key l) l.
Proof.
  induction l as [|x r IH]; simpl.
  - apply perm_nil.
  - eapply perm_trans; [apply insert_desc_perm | apply perm_skip, IH].
Qed.

Lemma insert_desc_sorted (x : A) (l : list A) :
  StronglySorted (desc key) l -> StronglySorted (desc key) (insert_desc key x l).
Proof.
  induction l as [|y r IH]; intro S; simpl.
  - constructor; constructor.
  - inversion S as [|? ? Sr Fr]; subst.
    destruct (Qgt_bool (key y) (key x)) eqn:E.
    + apply Qgt_bool_true in E.
      constructor; [apply IH, Sr|].
      apply (Permutation_Forall (Permutation_sym (insert_desc_perm x r))).
      constructor; [apply Qlt_le_weak, E | exact Fr].
    + apply Qgt_bool_false in E.
      constructor; [exact S|].
      constructor; [exact E|].
      eapply Forall_impl; [|exact Fr].
      intros z Hz. unfold desc in *. eapply Qle_trans; eassumption.
Qed.

Lemma sort_desc_sorted (l : list A) : StronglySorted (desc key) (sort_desc key l).
Proof.
  induction l as [|x r IH]; simpl.
  - constructor.
  - apply insert_desc_sorted, IH.
Qed.

Lemma insert_desc_with_key (q : Q) (x : A) (l : list A) :
  with_key key q (insert_desc key x l) = with_key key q (x :: l).
Proof.
  induction l as [|y r IH]; simpl; [reflexivity|].
  destruct (Qgt_bool (key y) (key x)) eqn:E; [|reflexivity].
  apply Qgt_bool_true in E.
  unfold with_key in *. simpl in *. rewrite IH.
  destruct (Qeq_bool (key x) q) eqn:Ex; [|reflexivity].
  destruct (Qeq_bool (key y) q) eqn:Ey; [|reflexivity].
  apply Qeq_bool_iff in Ex, Ey. exfalso.
  rewrite Ex, Ey in E. exact (Qlt_irrefl _ E).
Qed.

(** Stability: elements of equal key keep the order they had. *)
Lemma sort_desc_stable (q : Q) (l : list A) :
  with_key key q (sort_desc key l) = with_key key q l.
Proof.
  induction l as [|x r IH]; simpl; [reflexivity|].
  rewrite insert_desc_with_key.
  unfold with_key in *. simpl. now rewrite IH.
Qed.

End Sorting.

(** C8. Both ranking functions return the scores of their input sorted by
    falling [overall_score], and activities of equal [overall_score] stay
    in the order of the input. *)
Theorem rank_sorted_and_stable :
  (forall activities : list elderly_scorer.activity,
     let scored := map elderly_scorer.score_activity activities in
     let ranked := elderly_scorer.rank_activities_for_elderly activities in
     StronglySorted (desc elderly_scorer.overall_score) ranked
     /\ Permutation ranked scored
     /\ forall q, with_key elderly_scorer.overall_score q ranked
                  = with_key elderly_scorer.overall_score q scored)
  /\
  (forall (iteration_order : list string) (activities : list child_scorer.activity),
     let scored := map (child_scorer.score_activity iteration_order) activities in
     let ranked := child_scorer.rank_activities_for_children iteration_order activities in
     StronglySorted (desc child_scorer.overall_score) ranked
     /\ Permutation ranked scored
     /\ forall q, with_key child_scorer.overall_score q ranked
                  = with_key child_scorer.overall_score q scored).
Proof.
  split; intros; subst scored ranked;
    unfold elderly_scorer.rank_activities_for_elderly,
           child_scorer.rank_activities_for_children;
    (split; [apply sort_desc_sorted | split; [apply sort_desc_perm|]]);
    intro q; apply sort_desc_stable.
Qed.

(** ** Crowd predictor *)

Section Predictor.

Import crowd_predictor.

Lemma first_pattern_in (text : string) (patterns : list (string * list string)) (vt : string) :
  first_pattern text patterns = Some vt -> In vt (map fst patterns).
Proof.
  induction patterns as [|[t kws] r IH]; simpl; [discriminate|].
  destruct (existsb _ kws).
  - intro E. injection E as ->. now left.
  - intro E. right. now apply IH.
Qed.

Lemma classify_venue_in (title : string) (location : option string) :
  In (classify_venue title location) venue_types.
Proof.
  unfold classify_venue.
  destruct (first_pattern _ _VENUE_PATTERNS) eqn:E.
  - exact (first_pattern_in _ _ _ E).
  - unfold venue_types. simpl. tauto.
Qed.

Lemma in_range_spec (lo x hi : Z) : in_range lo x hi = true <-> lo <= x <= hi.
Proof.
  unfold in_range. rewrite andb_true_iff, !Z.leb_le. tauto.
Qed.

Lemma option_in_range (x : option Z) (hi : nat) :
  match x with
  | Some v => in_range 0 v (Z.of_nat hi) = true
  | None => True
  end ->
  In x (None :: map (fun n => Some (Z.of_nat n)) (seq 0 (S hi))).
Proof.
  destruct x as [v|]; [|now left].
  intro H. apply in_range_spec in H. right.
  apply in_map_iff. exists (Z.to_nat v). split.
  - f_equal. lia.
  - apply in_seq. lia.
Qed.

Lemma base_busyness_cases (curve : list Z) (hour : option Z) :
  exists h, In h hours /\ base_busyness curve hour = base_busyness curve h.
Proof.
  destruct hour as [v|].
  - destruct (in_range 0 v 23) eqn:E.
    + exists (Some v). split; [|reflexivity].
      apply (option_in_range (Some v) 23), E.
    + exists None. split; [now left|]. simpl. now rewrite E.
  - exists None. split; [now left | reflexivity].
Qed.

Lemma apply_day_cases (base : Z) (day_of_week : option Z) :
  exists d, In d days /\ apply_day base day_of_week = apply_day base d.
Proof.
  destruct day_of_week as [v|].
  - destruct (in_range 0 v 6) eqn:E.
    + exists (Some v). split; [|reflexivity].
      apply (option_in_range (Some v) 6), E.
    + exists None. split; [now left|]. simpl. now rewrite E.
  - exists None. split; [now left | reflexivity].
Qed.

Lemma busyness_for_cases (vt : string) (hour day_of_week : option Z) :
  exists h d, In h hours /\ In d days
              /\ busyness_for vt hour day_of_week = busyness_for vt h d.
Proof.
  destruct (base_busyness_cases (curve_of vt) hour) as (h & Hh & Eh).
  exists h. unfold busyness_for. rewrite Eh.
  destruct (base_busyness (curve_of vt) h) as [b|e]; simpl.
  - destruct (apply_day_cases b day_of_week) as (d & Hd & Ed).
    exists d. now rewrite Ed.
  - exists None. repeat split; [exact Hh | now left].
Qed.

(** Every combination of type, hour and day gives a figure. *)
Lemma busyness_for_ok_all :
  forallb (fun vt => forallb (fun h => forallb (fun d => is_ok (busyness_for vt h d)) days) hours)
          venue_types = true.
Proof. vm_compute. reflexivity. Qed.

Lemma busyness_for_ok (vt : string) (hour day_of_week : option Z) :
  In vt venue_types -> exists b, busyness_for vt hour day_of_week = Ok b /\ 0 <= b <= 100.
Proof.
  intro Hvt.
  destruct (busyness_for_cases vt hour day_of_week) as (h & d & Hh & Hd & E).
  pose proof busyness_for_ok_all as K.
  rewrite forallb_forall in K. specialize (K vt Hvt).
  rewrite forallb_forall in K. specialize (K h Hh).
  rewrite forallb_forall in K. specialize (K d Hd).
  rewrite E. clear E.
  unfold busyness_for in *.
  destruct (base_busyness (curve_of vt) h) as [b|e]; simpl in *; [|discriminate].
  destruct (apply_day b d) as [b'|e]; simpl in *; [|discriminate].
  eexists. split; [reflexivity | lia].
Qed.

Lemma predict_busyness_unfold (title : string) (location : option string)
    (hour day_of_week : option Z) :
  predict_busyness title location hour day_of_week
  = let vt := classify_venue title location in
    match busyness_for vt hour day_of_week with
    | Ok b => Ok (b, (band_tip b ++ venue_tip vt hour)%string, vt)
    | Raise e => Raise e
    end.
Proof.
  unfold predict_busyness, busyness_for. cbv zeta.
  destruct (base_busyness _ hour) as [b|e]; simpl; [|reflexivity].
  destruct (apply_day b day_of_week) as [b'|e]; reflexivity.
Qed.

(** [predict_busyness] never raises, and its figure is a percentage. *)
Lemma predict_busyness_total (title : string) (location : option string)
    (hour day_of_week : option Z) :
  exists b tip,
    predict_busyness title location hour day_of_week
    = Ok (b, tip, classify_venue title location)
    /\ 0 <= b <= 100.
Proof.
  rewrite predict_busyness_unfold. cbv zeta.
  destruct (busyness_for_ok _ hour day_of_week (classify_venue_in title location))
    as (b & E & R).
  rewrite E. eauto.
Qed.

Lemma day_law_all :
  forallb (fun vt => forallb (day_law vt) hours) venue_types = true.
Proof. vm_compute. reflexivity. Qed.

Lemma busyness_for_hour_cases (vt : string) (hour : option Z) :
  exists h, In h hours /\ forall d, busyness_for vt hour d = busyness_for vt h d.
Proof.
  destruct (base_busyness_cases (curve_of vt) hour) as (h & Hh & Eh).
  exists h. split; [exact Hh|]. intro d. unfold busyness_for. now rewrite Eh.
Qed.

Lemma day_law_holds (vt : string) (hour : option Z) :
  In vt venue_types ->
  exists monday sunday,
    busyness_for vt hour (Some 0) = Ok monday
    /\ busyness_for vt hour (Some 6) = Ok sunday
    /\ monday <= sunday.
Proof.
  intro Hvt.
  destruct (busyness_for_hour_cases vt hour) as (h & Hh & E).
  rewrite !E.
  pose proof day_law_all as K.
  rewrite forallb_forall in K. specialize (K vt Hvt).
  rewrite forallb_forall in K. specialize (K h Hh).
  unfold day_law in K.
  destruct (busyness_for vt h (Some 0)) as [m|]; [|discriminate].
  destruct (busyness_for vt h (Some 6)) as [s|]; [|discriminate].
  exists m, s. repeat split. now apply Z.leb_le.
Qed.

(** C6. For an hour [H] at which the curve of the classified type is
    positive, the figure for Sunday (day 6, multiplier 1.20) is at least
    the figure for Monday (day 0, multiplier 0.80), rounding and clamping
    included. *)
Theorem sunday_not_below_monday
    (title : string) (location : option string) (H c : Z) :
  0 <= H <= 23 ->
  list_index (curve_of (classify_venue title location)) H = Ok c ->
  0 < c ->
  exists monday tip0 sunday tip6 vt,
    predict_busyness title location (Some H) (Some 0) = Ok (monday, tip0, vt)
    /\ predict_busyness title location (Some H) (Some 6) = Ok (sunday, tip6, vt)
    /\ monday <= sunday.
Proof.
  intros _ _ _.
  destruct (day_law_holds _ (Some H) (classify_venue_in title location))
    as (m & s & Em & Es & L).
  rewrite !predict_busyness_unfold. cbv zeta. rewrite Em, Es.
  do 5 eexists. repeat split. exact L.
Qed.

Lemma sunday_not_below_monday_witness :
  exists monday tip0 sunday tip6 vt,
    predict_busyness "Marina Beach" None (Some 18) (Some 0) = Ok (monday, tip0, vt)
    /\ predict_busyness "Marina Beach" None (Some 18) (Some 6) = Ok (sunday, tip6, vt)
    /\ monday <= sunday.
Proof.
  apply (sunday_not_below_monday "Marina Beach" None 18 85).
  - lia.
  - reflexivity.
  - lia.
Defined.

End Predictor.

(** ** The poll loop of the forecast client *)

Section PollLoop.

Import besttime.

(** What the [try] block of a poll reads is the finished flag. *)
Lemma finished_flag (pd : json) :
  finished (Ok pd)
  = match job_finished_of pd with Ok flag => truthy flag | Raise _ => false end.
Proof.
  destruct pd as [| | | | |fields]; try reflexivity.
  unfold job_finished_of, get, bind, finished.
  destruct (assoc fields "job_finished"); reflexivity.
Qed.

Lemma poll_loop_spec (job_id collection_id : json) (polls : list nat)
    (progress_data : option json) (start_data : json) (svc : service) (w : list event) :
  exists rs returned,
    poll_loop job_id collection_id polls progress_data start_data svc w
    = (Ok returned, w ++ poll_events job_id collection_id rs)
    /\ answered svc w (poll_events job_id collection_id rs)
    /\ (length rs <= length polls)%nat
    /\ poll_outcome (length polls) progress_data start_data rs returned.
Proof.
  revert progress_data w.
  induction polls as [|i rest IH]; intros progress_data w.
  - exists [], (match progress_data with Some pd => pd | None => start_data end).
    simpl. rewrite app_nil_r.
    repeat split; [constructor | lia |].
    right. repeat split. constructor.
  - set (req := GetVenuesProgress job_id collection_id).
    set (w1 := w ++ [EvSleep 2]).
    set (r := svc w1 req).
    set (w2 := w1 ++ [EvHttp req r]).
    assert (Hlog : forall rs, w2 ++ poll_events job_id collection_id rs
                              = w ++ poll_events job_id collection_id (r :: rs)).
    { intro rs. subst w2 w1. simpl. now rewrite <- !app_assoc. }
    assert (Hans : forall rs, answered svc w2 (poll_events job_id collection_id rs) ->
                              answered svc w (poll_events job_id collection_id (r :: rs))).
    { intros rs Hrs. simpl. apply answered_sleep. fold w1.
      subst r. apply answered_http. exact Hrs. }
    assert (Hgo : forall pd',
               unfinished r ->
               last_payload progress_data [r] = pd' ->
               poll_loop job_id collection_id (i :: rest) progress_data start_data svc w
               = poll_loop job_id collection_id rest pd' start_data svc w2 ->
               exists rs returned,
                 poll_loop job_id collection_id (i :: rest) progress_data start_data svc w
                 = (Ok returned, w ++ poll_events job_id collection_id rs)
                 /\ answered svc w (poll_events job_id collection_id rs)
                 /\ (length rs <= length (i :: rest))%nat
                 /\ poll_outcome (length (i :: rest)) progress_data start_data rs returned).
    { intros pd' Hun Hlast Hstep.
      destruct (IH pd' w2) as (rs & j & Hrun & Ha & Hlen & Hout).
      exists (r :: rs), j. rewrite Hstep, Hrun, Hlog.
      repeat split; [apply Hans, Ha | simpl; lia |].
      destruct Hout as [(pre & p & -> & Hpre & Hfin & ->) | (Hl & Hall & ->)].
      - left. exists (r :: pre), p. repeat split; auto.
      - right. simpl. repeat split; [lia | constructor; auto |].
        simpl in Hlast. now rewrite Hlast. }
    destruct r as [pd|e] eqn:Er.
    + destruct (job_finished_of pd) as [flag|e] eqn:Ej.
      * destruct (truthy flag) eqn:Et.
        -- exists [Ok pd], pd.
           assert (Hrun : poll_loop job_id collection_id (i :: rest) progress_data
                            start_data svc w = (Ok pd, w2)).
           { simpl. unfold bindIO, poll_once, bindIO, sleep, http, poll_interval.
             fold w1. fold req. fold r. rewrite Er, Ej, Et. reflexivity. }
           assert (Hw2 : w2 = w ++ poll_events job_id collection_id [Ok pd]).
           { rewrite <- (Hlog []). simpl. now rewrite app_nil_r. }
           rewrite Hrun, Hw2.
           repeat split; [apply (Hans []); constructor | simpl; lia |].
           left. exists [], pd. repeat split; [constructor|].
           now rewrite finished_flag, Ej.
        -- apply (Hgo (Some pd)); [unfold unfinished; now rewrite finished_flag, Ej | reflexivity |].
           simpl. unfold bindIO, poll_once, bindIO, sleep, http, poll_interval.
           fold w1. fold req. fold r. rewrite Er, Ej, Et. reflexivity.
      * apply (Hgo (Some pd)); [unfold unfinished; now rewrite finished_flag, Ej | reflexivity |].
        simpl. unfold bindIO, poll_once, bindIO, sleep, http, poll_interval.
        fold w1. fold req. fold r. rewrite Er, Ej. reflexivity.
    + apply (Hgo progress_data); [reflexivity | reflexivity |].
      simpl. unfold bindIO, poll_once, bindIO, sleep, http, poll_interval.
      fold w1. fold req. fold r. rewrite Er. reflexivity.
Qed.

(** C1. A venue search whose job was started (the first answer carries a
    [job_id] and a [collection_id]) never raises from its poll loop. It
    makes at most 15 polls, each after a sleep of 2 seconds; it returns the
    payload of the first poll that reports the finished flag, right after
    that poll; a poll that fails is skipped; and when 15 polls passed
    without the flag it returns the payload of the last poll that
    succeeded, or the job-start payload when none did. *)
Theorem venue_search_polls
    (self : BestTimeClient) (query : string) (num : Z)
    (svc : service) (w : list event) (start_data job_id collection_id : json) :
  let post := PostVenuesSearch (api_key_private self) query num in
  svc w post = Ok start_data ->
  get start_data "job_id" JNull = Ok job_id ->
  get start_data "collection_id" JNull = Ok collection_id ->
  truthy job_id = true ->
  truthy collection_id = true ->
  exists rs returned,
    venue_search self query num svc w
    = (Ok returned,
       (w ++ [EvHttp post (Ok start_data)]) ++ poll_events job_id collection_id rs)
    /\ answered svc (w ++ [EvHttp post (Ok start_data)]) (poll_events job_id collection_id rs)
    /\ (length rs <= 15)%nat
    /\ poll_outcome 15 None start_data rs returned.
Proof.
  intros post Hpost Hjob Hcoll Tjob Tcoll.
  destruct (poll_loop_spec job_id collection_id (seq 0 max_polls) None start_data svc
              (w ++ [EvHttp post (Ok start_data)]))
    as (rs & j & Hrun & Ha & Hlen & Hout).
  exists rs, j.
  unfold venue_search, bindIO, http, lift. fold post.
  rewrite Hpost, Hjob, Hcoll, Tjob, Tcoll.
  change (negb true || negb true) with false. cbv iota.
  rewrite Hrun. auto.
Qed.

End PollLoop.

(** ** Busyness extraction from a venue payload *)

Section Extraction.

Import crowd.


















(** The mean is rounded as the double it is: 17 cells of 50 and 3 of 51
    have the mean 50.15, the double nearest to it lies below it, and the
    helper returns 50.1. *)
Example week_mean_rounds_the_double :
  extract_busyness_from_venue
    (JDict [("forecast",
             JDict [("analysis",
                     JDict [("week_raw",
                             JList [JList (repeat (JNum 50) 17 ++ repeat (JNum 51) 3)])])])])
    None None
  = Ok (Some (501 # 10)).
Proof. vm_compute. reflexivity. Qed.

(** With a negative hour the length of ["day_raw"] is not taken, so a
    ["day_raw"] that has no length does no harm; with an hour from 0 on
    it raises. *)
Example day_raw_without_length :
  let venue := JDict [("forecast", JDict [("analysis", JDict [("day_raw", JNum 5)])])] in
  extract_busyness_from_venue venue (Some 0) (Some (-1)) = Ok None
  /\ extract_busyness_from_venue venue (Some 0) (Some 0)
     = Raise (PyExn TypeError "object has no len()").
Proof. split; vm_compute; reflexivity. Qed.

(** A direct field that holds an integer beyond the doubles raises. *)
Example direct_field_beyond_the_doubles :
  extract_busyness_from_venue (JDict [("busyness", JNum (inject_Z (10 ^ 400)))]) None None
  = Raise (PyExn OverflowError "int too large to convert to float").
Proof. vm_compute. reflexivity. Qed.

End Extraction.

(** ** Itinerary analysis: the fallback chain *)

Section Analysis.

Import besttime crowd_predictor crowd.

Lemma predicted_entry_ok (a : ItineraryActivity) (hour : option Z) (flag : option bool) :
  exists e, predicted_entry a hour flag = Ok e
            /\ is_predicted e = true /\ api_available e = flag
            /\ marks_provenance a hour e.
Proof.
  unfold predicted_entry.
  destruct (predict_busyness_total (title a) (location a) hour (day_of_week a))
    as (b & tip & E & R).
  rewrite E. simpl. eexists. split; [reflexivity|].
  repeat split; simpl; eauto 10.
Qed.

Lemma live_tip_number (b : json) (tip : string) :
  live_tip b = Ok tip -> exists q, number b = Some q.
Proof.
  unfold live_tip, json_gt. destruct (number b) as [q|]; [eauto | discriminate].
Qed.

Lemma analyze_venue_marks (self : BestTimeClient) (a : ItineraryActivity)
    (hour : option Z) (venue : json) (svc : service) (w : list event)
    (e : AnalysisEntry) (w' : list event) :
  analyze_venue self a hour venue svc w = (Ok e, w') ->
  api_available e = None /\ marks_provenance a hour e.
Proof.
  unfold analyze_venue, bindIO, lift, ret, try_except.
  destruct (extract_busyness_from_venue venue (day_of_week a) hour) as [extracted|]; [|discriminate].
  destruct (forecast_retry self a hour _ _ svc w) as [[busyness|] w1]; [|discriminate].
  destruct busyness as [b|].
  - destruct (live_tip b) as [tip|] eqn:Et; [|discriminate].
    intro H. injection H as <- _. split; [reflexivity|].
    split; [reflexivity|]. simpl. eapply live_tip_number, Et.
  - destruct (predict_busyness_total (title a) (location a) hour (day_of_week a))
      as (b & tip & E & R).
    rewrite E. intro H. injection H as <- _. split; [reflexivity|].
    split; [reflexivity|]. simpl. eauto 10.
Qed.

(** Whatever the client and the service do, an activity gets its entry. *)
Lemma analyze_activity_ok (bt : option BestTimeClient) (dest : string)
    (a : ItineraryActivity) (svc : service) (w : list event) :
  exists e w',
    analyze_activity bt dest a svc w = (Ok e, w')
    /\ marks_provenance a (parse_hour (start_time a)) e.
Proof.
  unfold analyze_activity.
  destruct (available bt) as [self|].
  - unfold try_except.
    set (body := bindIO _ _).
    assert (Hbody : forall e w', body svc w = (Ok e, w') ->
                                 marks_provenance a (parse_hour (start_time a)) e).
    { subst body. unfold bindIO, lift.
      destruct (besttime.venue_search self _ 1 svc w) as [[search_data|] w1]; [|discriminate].
      destruct (extract_venues_from_progress search_data) as [|venue rest].
      - destruct (predicted_entry_ok a (parse_hour (start_time a)) None)
          as (e0 & E0 & _ & _ & M0).
        rewrite E0. intros e w' H. injection H as <- _. exact M0.
      - intros e w' H. eapply analyze_venue_marks, H. }
    destruct (body svc w) as [[e|err] w1].
    + exists e, w1. split; [reflexivity | eapply Hbody; reflexivity].
    + destruct (predicted_entry_ok a (parse_hour (start_time a)) None)
        as (e0 & E0 & _ & _ & M0).
      exists e0, w1. unfold lift. rewrite E0. auto.
  - destruct (predicted_entry_ok a (parse_hour (start_time a)) (Some false))
      as (e0 & E0 & _ & _ & M0).
    exists e0, w. unfold lift. rewrite E0. auto.
Qed.

Lemma for_each_ok {A B} (f : A -> IO B) (P : A -> B -> Prop) (svc : service) :
  (forall a w, exists b w', f a svc w = (Ok b, w') /\ P a b) ->
  forall l w, exists bs w', for_each f l svc w = (Ok bs, w') /\ Forall2 P l bs.
Proof.
  intros Hf l. induction l as [|a r IH]; intro w; simpl.
  - exists [], w. split; [reflexivity | constructor].
  - destruct (Hf a w) as (b & w1 & E & Pb).
    destruct (IH w1) as (bs & w2 & Er & Pr).
    exists (b :: bs), w2. unfold bindIO, ret. rewrite E, Er.
    split; [reflexivity | now constructor].
Qed.

Lemma for_each_lift {A B} (g : A -> result B) (l : list A) (svc : service) (w : list event) :
  for_each (fun a => lift (g a)) l svc w = (for_all g l, w).
Proof.
  induction l as [|a r IH]; simpl; [reflexivity|].
  unfold bindIO, lift, ret, bind in *. rewrite IH.
  destruct (g a); [|reflexivity].
  destruct (for_all g r); reflexivity.
Qed.

(** The itinerary analysis answers every request. *)
Lemma analyze_itinerary_ok (req : AnalyzeItineraryRequest) (bt : option BestTimeClient)
    (svc : service) (w : list event) :
  exists resp w',
    analyze_itinerary req bt svc w = (Ok resp, w')
    /\ api_configured resp = is_some (available bt)
    /\ Forall2 (fun a e => marks_provenance a (parse_hour (start_time a)) e)
               (activities req) (analysis resp).
Proof.
  unfold analyze_itinerary, bindIO, ret.
  destruct (for_each_ok (analyze_activity bt (destination req))
              (fun a e => marks_provenance a (parse_hour (start_time a)) e) svc
              (fun a w0 => analyze_activity_ok bt (destination req) a svc w0)
              (activities req) w) as (bs & w1 & E & F).
  rewrite E. eexists. eexists. split; [reflexivity|]. simpl.
  split; [destruct (available bt); reflexivity | exact F].
Qed.

(** Without a configured client the analysis is the prediction, and the
    log of external calls stays as it was. *)
Lemma analyze_itinerary_unconfigured (req : AnalyzeItineraryRequest)
    (bt : option BestTimeClient) (svc : service) (w : list event) :
  available bt = None ->
  exists entries,
    predicted_analysis (activities req) = Ok entries
    /\ analyze_itinerary req bt svc w
       = (Ok {| resp_destination := destination req;
                analysis := entries;
                api_configured := false |}, w).
Proof.
  intro Hav.
  destruct (analyze_itinerary_ok req bt svc w) as (resp & w' & E & _ & _).
  revert E. unfold analyze_itinerary, bindIO, ret, predicted_analysis.
  assert (Hf : analyze_activity bt (destination req)
               = fun a => lift (predicted_entry a (parse_hour (start_time a)) (Some false))).
  { unfold analyze_activity. now rewrite Hav. }
  rewrite Hf, for_each_lift, Hav.
  destruct (for_all _ (activities req)) as [entries|]; [|discriminate].
  intros _. now exists entries.
Qed.

End Analysis.

(** ** The configuration gate *)

Section Gate.

Import besttime crowd.

Lemma xs_length (n : nat) : String.length (xs n) = n.
Proof. induction n; simpl; congruence. Qed.

Lemma append_length (a b : string) :
  String.length (a ++ b)%string = (String.length a + String.length b)%nat.
Proof. induction a; simpl; congruence. Qed.

Lemma longest_bound (l : list string) (s : string) :
  In s l -> (String.length s <= longest l)%nat.
Proof.
  induction l as [|t r IH]; simpl; [tauto|].
  intros [->|H]; [lia | specialize (IH H); lia].
Qed.

Lemma mem_longer (x : string) (l : list string) :
  (longest l < String.length x)%nat -> mem x l = false.
Proof.
  intro H. unfold mem.
  destruct (existsb (String.eqb x) l) eqn:E; [|reflexivity].
  apply existsb_exists in E. destruct E as (s & Hs & Es).
  apply String.eqb_eq in Es. subst s.
  apply longest_bound in Hs. lia.
Qed.

(** Whatever values are taken as the known placeholders, the gate is not
    an equality test against them. *)
Lemma is_configured_no_placeholder_list :
  ~ exists placeholders,
      forall self, is_configured self = spec_is_configured placeholders self.
Proof.
  intros (ps & H).
  set (n := S (longest ps)).
  specialize (H {| api_key_private := ("your_private_key" ++ xs n)%string;
                   api_key_public := xs n |}).
  unfold is_configured, spec_is_configured in H. cbn [api_key_private api_key_public] in H.
  rewrite (mem_longer (xs n) ps) in H by (rewrite xs_length; subst n; lia).
  rewrite (mem_longer ("your_private_key" ++ xs n)%string ps) in H
    by (rewrite append_length, xs_length; subst n; lia).
  subst n. simpl in H. discriminate H.
Qed.

(** C5, as stated, fails: both credentials of [marked_client] are present
    and neither equals a placeholder value, yet the private key contains
    the marker [your_private_key] and the client counts as unconfigured. *)
Lemma is_configured_rejects_marked_key :
  is_configured marked_client = false
  /\ api_key_private marked_client <> "" /\ api_key_public marked_client <> ""
  /\ api_key_private marked_client <> "your_private_key"
  /\ api_key_public marked_client <> "your_public"
  /\ spec_is_configured known_placeholders marked_client = true.
Proof. repeat split; try discriminate; vm_compute; reflexivity. Qed.

End Gate.

Section GateTheorem.

Import besttime crowd.

Lemma str_nonempty_spec (s : string) : str_nonempty s = true <-> s <> "".
Proof. destruct s; simpl; split; congruence. Qed.

(** C5, amended. [is_configured] holds exactly when both credentials
    are non-empty and neither contains its placeholder marker
    ([your_private_key] in the private one, [your_public] in the public
    one). When it fails, the itinerary analysis makes no external call:
    the log stays as it was and every entry is the prediction. *)
Theorem is_configured_gate (self : BestTimeClient) :
  (is_configured self = true
   <-> api_key_private self <> "" /\ api_key_public self <> ""
       /\ contains "your_private_key" (api_key_private self) = false
       /\ contains "your_public" (api_key_public self) = false)
  /\ forall (req : AnalyzeItineraryRequest) (svc : service) (w : list event),
       if is_configured self then True
       else exists entries,
           predicted_analysis (activities req) = Ok entries
           /\ analyze_itinerary req (Some self) svc w
              = (Ok {| resp_destination := destination req;
                       analysis := entries;
                       api_configured := false |}, w).
Proof.
  split.
  - unfold is_configured. rewrite <- !str_nonempty_spec.
    destruct (str_nonempty (api_key_private self)), (str_nonempty (api_key_public self)),
      (contains "your_private_key" (api_key_private self)),
      (contains "your_public" (api_key_public self)); simpl; intuition congruence.
  - intros req svc w. destruct (is_configured self) eqn:E; [exact I|].
    apply analyze_itinerary_unconfigured. simpl. now rewrite E.
Qed.

End GateTheorem.

Section PollLoopExamples.

Import besttime.

Lemma venue_search_polls_witness :
  exists rs returned,
    venue_search live_client "Marina Beach Chennai" 1 flaky_service []
    = (Ok returned,
       ([] ++ [EvHttp (PostVenuesSearch "pri_7c1d" "Marina Beach Chennai" 1) (Ok job_started)])
       ++ poll_events (JStr "job-1") (JStr "col-1") rs)
    /\ answered flaky_service
         ([] ++ [EvHttp (PostVenuesSearch "pri_7c1d" "Marina Beach Chennai" 1) (Ok job_started)])
         (poll_events (JStr "job-1") (JStr "col-1") rs)
    /\ (length rs <= 15)%nat
    /\ poll_outcome 15 None job_started rs returned.
Proof.
  apply (venue_search_polls live_client "Marina Beach Chennai" 1 flaky_service []
           job_started (JStr "job-1") (JStr "col-1")); reflexivity.
Defined.

(** The flaky service: three polls, the failed one skipped, the finished
    payload returned. *)
Example venue_search_flaky :
  venue_search live_client "Marina Beach Chennai" 1 flaky_service []
  = (Ok all_done,
     EvHttp (PostVenuesSearch "pri_7c1d" "Marina Beach Chennai" 1) (Ok job_started)
     :: poll_events (JStr "job-1") (JStr "col-1") [Raise timeout_error; Ok half_done; Ok all_done]).
Proof. vm_compute. reflexivity. Qed.

(** The stuck service: fifteen polls, then the last payload seen. *)
Example venue_search_stuck :
  exists w,
    venue_search live_client "Marina Beach Chennai" 1 stuck_service [] = (Ok half_done, w)
    /\ List.length w = 31%nat.
Proof. eexists. split; vm_compute; reflexivity. Qed.

(** The service that is down after the job started: the job-start
    payload comes back. *)
Example venue_search_no_poll_succeeds :
  poll_loop (JStr "job-1") (JStr "col-1") (seq 0 max_polls) None job_started down_service []
  = (Ok job_started, poll_events (JStr "job-1") (JStr "col-1") (repeat (Raise timeout_error) 15)).
Proof. vm_compute. reflexivity. Qed.

(** X23. A search whose first answer names no job returns that answer and
    does not poll. *)
Lemma venue_search_without_job (self : BestTimeClient) (query : string) (num : Z)
    (svc : service) (w : list event) (start_data job_id collection_id : json) :
  let post := PostVenuesSearch (api_key_private self) query num in
  svc w post = Ok start_data ->
  get start_data "job_id" JNull = Ok job_id ->
  get start_data "collection_id" JNull = Ok collection_id ->
  truthy job_id && truthy collection_id = false ->
  venue_search self query num svc w = (Ok start_data, w ++ [EvHttp post (Ok start_data)]).
Proof.
  intros post Hpost Hjob Hcoll T.
  unfold venue_search, bindIO, http, lift. fold post.
  rewrite Hpost, Hjob, Hcoll.
  destruct (truthy job_id), (truthy collection_id); try discriminate T; reflexivity.
Qed.

(** A search whose first exchange fails raises that failure. *)
Lemma venue_search_start_fails (self : BestTimeClient) (query : string) (num : Z)
    (svc : service) (w : list event) (e : exn) :
  let post := PostVenuesSearch (api_key_private self) query num in
  svc w post = Raise e ->
  venue_search self query num svc w = (Raise e, w ++ [EvHttp post (Raise e)]).
Proof.
  intros post Hpost. unfold venue_search, bindIO, http. fold post. now rewrite Hpost.
Qed.

End PollLoopExamples.

(** ** Errors at the API boundary *)

Section Boundary.

Import besttime crowd.



(** C4. [predict_busyness] returns, for all arguments, an integer figure
    between 0 and 100; and the analysis calls it on the same arguments
    (title, location, parsed hour, day) on every path: an entry marked
    predicted carries exactly its figure and tip, whether the client was
    unconfigured, the search failed or the venue had no data. *)
Theorem predict_busyness_percentage_everywhere
    (title : string) (location : option string) (hour day_of_week : option Z) :
  (exists b tip,
     crowd_predictor.predict_busyness title location hour day_of_week
     = Ok (b, tip, crowd_predictor.classify_venue title location)
     /\ 0 <= b <= 100)
  /\ forall (bt : option BestTimeClient) (dest : string) (start : option string)
            (svc : service) (w : list event),
       let a := {| crowd.title := title; location := location;
                   start_time := start; day_of_week := day_of_week |} in
       exists e w',
         analyze_activity bt dest a svc w = (Ok e, w')
         /\ marks_provenance a (parse_hour start) e.
Proof.
  split.
  - apply predict_busyness_total.
  - intros bt dest start svc w a. apply (analyze_activity_ok bt dest a svc w).
Qed.

End Boundary.

(** ** The overall itinerary score *)

Section Overall.

Import besttime.

Lemma for_each_length {A B} (f : A -> IO B) (l : list A) (svc : service)
    (w w' : list event) (bs : list B) :
  for_each f l svc w = (Ok bs, w') -> length bs = length l.
Proof.
  revert w w' bs. induction l as [|a r IH]; intros w w' bs; simpl.
  - unfold ret. intro H. injection H as <- _. reflexivity.
  - unfold bindIO, ret.
    destruct (f a svc w) as [[b|] w1]; [|discriminate].
    destruct (for_each f r svc w1) as [[bs'|] w2] eqn:E; [|discriminate].
    intro H. injection H as <- _. simpl. f_equal. eapply IH, E.
Qed.

Lemma for_all_length {A B} (f : A -> result B) (l : list A) (bs : list B) :
  for_all f l = Ok bs -> length bs = length l.
Proof.
  revert bs. induction l as [|a r IH]; intros bs; simpl.
  - intro H. injection H as <-. reflexivity.
  - destruct (f a); [|discriminate]. simpl.
    destruct (for_all f r) as [bs'|]; [|discriminate]. simpl.
    intro H. injection H as <-. simpl. f_equal. now apply IH.
Qed.


(** What the elderly optimisation returns, when it returns. *)
Lemma optimize_itinerary_shape (req : elderly.ElderlyOptimizeRequest)
    (bt : option BestTimeClient) (svc : service) (w w' : list event)
    (resp : elderly.OptimizeResponse) :
  elderly.optimize_itinerary req bt svc w = (Ok resp, w') ->
  length (elderly.scored_activities resp) = length (elderly.activities req)
  /\ StronglySorted (desc elderly_scorer.overall_score) (elderly.scored_activities resp).
Proof.
  unfold elderly.optimize_itinerary, bindIO, lift, ret.
  destruct (for_each _ (elderly.activities req) svc w) as [[es|] w1] eqn:Ee; [|discriminate].
  destruct (for_all elderly.enriched_to_activity es) as [acts|] eqn:Ea; [|discriminate].
  intro H. injection H as <- _. cbn [elderly.scored_activities].
  split.
  - unfold elderly_scorer.rank_activities_for_elderly.
    rewrite (Permutation_length (sort_desc_perm _ _)), length_map.
    rewrite (for_all_length _ _ _ Ea). eapply for_each_length, Ee.
  - apply sort_desc_sorted.
Qed.



(** For an empty activity list both optimisations answer, with or
    without a configured client, and the overall score is exactly 0. *)
Lemma empty_itinerary_scores_zero :
  (forall (iteration_order : list string) (dest : string),
     child.overall_child_score
       (child.optimize_itinerary_for_children iteration_order
          {| child.destination := dest; child.activities := [] |}) = 0%Q)
  /\ (forall (dest : string) (bt : option BestTimeClient) (svc : service) (w : list event),
        exists resp,
          elderly.optimize_itinerary
            {| elderly.destination := dest; elderly.activities := [] |} bt svc w
          = (Ok resp, w)
          /\ elderly.scored_activities resp = []
          /\ elderly.overall_elderly_score resp = 0%Q).
Proof.
  split; [reflexivity|].
  intros dest bt svc w.
  unfold elderly.optimize_itinerary, bindIO, lift, ret. simpl.
  eexists. split; [reflexivity|]. split; reflexivity.
Qed.


End Overall.

(** ** The scenarios of the specification *)

Section Scenarios.

Import crowd_predictor.

Example classify_juhu_beach : classify_venue "Juhu Beach" None = "beach".
Proof. reflexivity. Qed.

Example classify_default : classify_venue "Random Obscure Thing" None = "attraction".
Proof. reflexivity. Qed.

(** Marina Beach, Saturday 18 h: the beach curve gives 85, times 1.15,
    rounded: 98, with the sunset addendum. *)
Example marina_beach_saturday_evening :
  predict_busyness "Marina Beach" None (Some 18) (Some 5)
  = Ok (98,
        "🔴 Predicted very crowded! Consider visiting at a quieter hour. 🌅 Popular sunset hours at the beach.",
        "beach").
Proof. vm_compute. reflexivity. Qed.

(** 50 x 1.15 is 57.49999999999999 as a double: 57, not 58. *)
Example restaurant_saturday_morning :
  exists tip, predict_busyness "Breakfast at the cafe" None (Some 9) (Some 5)
              = Ok (57, tip, "restaurant").
Proof. eexists. vm_compute. reflexivity. Qed.

(** The hour is read from the text before the first colon. *)
Example parse_hour_examples :
  crowd.parse_hour (Some "18:30") = Some 18
  /\ crowd.parse_hour (Some " 7:05") = Some 7
  /\ crowd.parse_hour (Some "noon") = None
  /\ crowd.parse_hour (Some "") = None
  /\ crowd.parse_hour None = None.
Proof. repeat split. Qed.

(** 150 minutes outdoors: 10500 steps and 7.5 km; the penalties take the
    walkability score below 0, where it is clamped. *)
Example elderly_long_outdoor_walk :
  elderly_scorer.estimate_steps_from_duration (Some 150) true None = 10500
  /\ Qeq (elderly_scorer.estimate_distance_from_duration (Some 150) true None) 7.5%Q
  /\ Qeq (elderly_scorer.compute_walkability_score true (Some 150) None None
             (Some 7.5%Q) (Some 10500)) 0%Q.
Proof. repeat split. Qed.

Example child_roller_coaster :
  let s := child_scorer.score_activity_for_child child_scorer.KID_FRIENDLY_TYPES
             "Roller coaster and zoo day" None false None (Some "amusement_park") in
  (child_scorer.fun_score s == 94)%Q
  /\ child_scorer.recommendation s = "Super Fun!".
Proof. split; vm_compute; reflexivity. Qed.

(** A venue with a [day_raw] array: the entry of the hour is read for any
    day given, also one that is no weekday. *)
Example day_raw_read_for_any_day :
  let venue := JDict [("forecast", JDict [("analysis",
                 JDict [("day_raw", JList [JNum 10; JNum 42; JNum 30])])])] in
  crowd.extract_busyness_from_venue venue (Some 9) (Some 1) = Ok (Some 42%Q)
  /\ crowd.extract_busyness_from_venue venue None (Some 1) = Ok None.
Proof. split; vm_compute; reflexivity. Qed.

(** With the service down, a configured analysis still answers with the
    prediction. *)
Example analysis_with_service_down :
  exists resp w,
    crowd.analyze_itinerary
      {| crowd.destination := "Chennai";
         crowd.activities := [{| crowd.title := "Marina Beach"; crowd.location := None;
                                  crowd.start_time := Some "18:00";
                                  crowd.day_of_week := Some 5 |}] |}
      (Some live_client) down_service []
    = (Ok resp, w)
    /\ crowd.api_configured resp = true
    /\ map crowd.is_predicted (crowd.analysis resp) = [true]
    /\ map crowd.busyness_at_planned_time (crowd.analysis resp) = [JNum (inject_Z 98)].
Proof. eexists. eexists. split; [vm_compute; reflexivity|]. repeat split. Qed.

(** A day forecast with text where a percentage belongs, through the
    crowd analysis: the comparison with 80 raises inside the [try], the
    prediction stands in. *)
Example crowd_analysis_text_cell :
  exists resp w,
    crowd.analyze_itinerary
      {| crowd.destination := "Chennai";
         crowd.activities := [{| crowd.title := "Marina Beach"; crowd.location := None;
                                  crowd.start_time := Some "0:30";
                                  crowd.day_of_week := Some 0 |}] |}
      (Some live_client) text_cell_service []
    = (Ok resp, w)
    /\ map crowd.is_predicted (crowd.analysis resp) = [true]
    /\ map crowd.busyness_at_planned_time (crowd.analysis resp) = [JNum (inject_Z 4)].
Proof. eexists. eexists. split; [vm_compute; reflexivity|]. repeat split. Qed.

End Scenarios.

(** ** Rounding is monotone *)

Lemma round_q_floor (x : Q) : Qfloor x <= round_q x <= Qfloor x + 1.
Proof.
  unfold round_q.
  destruct ((x - inject_Z (Qfloor x)) * 2 ?= 1)%Q; try destruct (Z.even (Qfloor x)); lia.
Qed.

Lemma round_q_mono (x y : Q) : (x <= y)%Q -> round_q x <= round_q y.
Proof.
  intro H.
  pose proof (Qfloor_resp_le _ _ H) as Hf.
  destruct (Z.eq_dec (Qfloor x) (Qfloor y)) as [E|N].
  - unfold round_q. rewrite <- E.
    destruct (Qcompare_spec ((x - inject_Z (Qfloor x)) * 2) 1) as [Hx|Hx|Hx];
      destruct (Qcompare_spec ((y - inject_Z (Qfloor x)) * 2) 1) as [Hy|Hy|Hy];
      try destruct (Z.even (Qfloor x)); try lia; exfalso; lra.
  - pose proof (round_q_floor x). pose proof (round_q_floor y). lia.
Qed.

Lemma round_q_integer (n : Z) : round_q (inject_Z n) = n.
Proof.
  unfold round_q. rewrite Qfloor_Z.
  assert (E : ((inject_Z n - inject_Z n) * 2 ?= 1)%Q = Lt)
    by (apply (proj1 (Qlt_alt _ _)); generalize (inject_Z n); intro q; lra).
  now rewrite E.
Qed.

Lemma round1_mono (x y : Q) : (x <= y)%Q -> (round1 x <= round1 y)%Q.
Proof.
  intro H. unfold round1, round_to.
  assert (L : round_q (x * (10 # 1)) <= round_q (y * (10 # 1))) by (apply round_q_mono; lra).
  unfold Qle. simpl. lia.
Qed.

Lemma round1_percentage (x : Q) : (0 <= x <= 100)%Q -> (0 <= round1 x <= 100)%Q.
Proof.
  intros [H0 H1]. split.
  - apply (Qle_trans _ (round1 0)); [vm_compute; discriminate | apply round1_mono, H0].
  - apply (Qle_trans _ (round1 100)); [apply round1_mono, H1 | vm_compute; discriminate].
Qed.

(** ** Elderly scorer: ranges and monotony *)

Section ElderlyRanges.

Import elderly_scorer.

Lemma crowd_score_mono (b1 b2 : Q) :
  (b1 <= b2)%Q ->
  (compute_crowd_score (Some b2) <= compute_crowd_score (Some b1))%Q.
Proof.
  intro H. unfold compute_crowd_score. apply clamp100_mono. lra.
Qed.

(** X1. The crowd score is a percentage and falls, or stays, when the
    busyness rises. *)
Theorem crowd_score_antitone (b1 b2 : Q) :
  (b1 <= b2)%Q ->
  (0 <= compute_crowd_score (Some b2)
   /\ compute_crowd_score (Some b2) <= compute_crowd_score (Some b1)
   /\ compute_crowd_score (Some b1) <= 100)%Q.
Proof.
  intro H. split; [|split; [apply crowd_score_mono, H|]];
    unfold compute_crowd_score; apply clamp100_bounds.
Qed.

Lemma crowd_score_antitone_witness :
  (0 <= compute_crowd_score (Some 90)
   /\ compute_crowd_score (Some 90) <= compute_crowd_score (Some 40)
   /\ compute_crowd_score (Some 40) <= 100)%Q.
Proof.
  apply (crowd_score_antitone 40 90). unfold Qle. simpl. lia.
Defined.

Lemma crowd_score_percentage (b : option Q) :
  (0 <= compute_crowd_score b <= 100)%Q.
Proof.
  destruct b as [q|]; [apply clamp100_bounds | vm_compute; split; discriminate].
Qed.

Lemma distance_penalty_mono (d1 d2 : Q) :
  (d1 <= d2)%Q -> (distance_penalty (Some d1) <= distance_penalty (Some d2))%Q.
Proof.
  intro H. unfold distance_penalty.
  repeat match goal with
         | |- context [Qgt_bool ?a ?b] =>
             let E := fresh "E" in
             destruct (Qgt_bool a b) eqn:E;
             [apply Qgt_bool_true in E | apply Qgt_bool_false in E]
         end; lra.
Qed.

Lemma duration_penalty_mono (m1 m2 : Z) :
  m1 <= m2 -> (duration_penalty (Some m1) <= duration_penalty (Some m2))%Q.
Proof.
  intro H. unfold duration_penalty.
  repeat match goal with
         | |- context [?a =? ?b] => destruct (Z.eqb_spec a b)
         | |- context [?a <? ?b] => destruct (Z.ltb_spec a b)
         end; try lia; lra.
Qed.

(** X2. The walkability score is a percentage, and an outdoor activity
    never scores higher than the same activity indoors. *)
Theorem walkability_percentage_outdoor
    (is_outdoor : bool) (duration_minutes : option Z)
    (venue_type description : option string) (distance_km : option Q)
    (estimated_steps : option Z) :
  (0 <= compute_walkability_score is_outdoor duration_minutes venue_type description
          distance_km estimated_steps <= 100
   /\ compute_walkability_score true duration_minutes venue_type description
        distance_km estimated_steps
      <= compute_walkability_score false duration_minutes venue_type description
           distance_km estimated_steps)%Q.
Proof.
  split; [apply clamp100_bounds|].
  unfold compute_walkability_score. cbv zeta. apply clamp100_mono. lra.
Qed.

(** X3. A longer distance and a longer duration never raise the
    walkability score. *)
Theorem walkability_monotone_in_distance_and_duration
    (is_outdoor : bool) (venue_type description : option string)
    (estimated_steps : option Z) (d1 d2 : Q) (m1 m2 : Z) :
  (d1 <= d2)%Q -> m1 <= m2 ->
  Qle (compute_walkability_score is_outdoor (Some m2) venue_type description
         (Some d2) estimated_steps)
      (compute_walkability_score is_outdoor (Some m1) venue_type description
         (Some d1) estimated_steps).
Proof.
  intros Hd Hm. unfold compute_walkability_score. cbv zeta.
  apply clamp100_mono.
  pose proof (distance_penalty_mono d1 d2 Hd).
  pose proof (duration_penalty_mono m1 m2 Hm).
  destruct is_outdoor; lra.
Qed.

Lemma walkability_monotone_in_distance_and_duration_witness :
  Qle (compute_walkability_score false (Some 200) (Some "museum") None
         (Some 4.2%Q) (Some 2000))
      (compute_walkability_score false (Some 45) (Some "museum") None
         (Some 0.8%Q) (Some 2000)).
Proof.
  apply (walkability_monotone_in_distance_and_duration false (Some "museum") None
           (Some 2000) 0.8%Q 4.2%Q 45 200).
  - unfold Qle. simpl. lia.
  - lia.
Defined.

(** X4. For a duration that is not negative the estimated steps lie
    between 20 and 90 per minute, and a longer duration never gives fewer
    steps. *)
Theorem estimated_steps_proportional
    (is_outdoor : bool) (venue_type : option string) (m1 m2 : Z) :
  0 <= m1 <= m2 ->
  20 * m1 <= estimate_steps_from_duration (Some m1) is_outdoor venue_type <= 90 * m1
  /\ estimate_steps_from_duration (Some m1) is_outdoor venue_type
     <= estimate_steps_from_duration (Some m2) is_outdoor venue_type.
Proof.
  intro H. unfold estimate_steps_from_duration.
  destruct (Z.eqb_spec m1 0), (Z.eqb_spec m2 0);
    destruct (opt_str_truthy venue_type);
    try destruct (any_in HIGH_EFFORT_TYPES _);
    try destruct (any_in LOW_EFFORT_TYPES _);
    try destruct is_outdoor; lia.
Qed.

Lemma estimated_steps_proportional_witness :
  20 * 60 <= estimate_steps_from_duration (Some 60) true (Some "Hiking trail") <= 90 * 60
  /\ estimate_steps_from_duration (Some 60) true (Some "Hiking trail")
     <= estimate_steps_from_duration (Some 150) true (Some "Hiking trail").
Proof.
  apply (estimated_steps_proportional true (Some "Hiking trail") 60 150). lia.
Defined.

Lemma accessibility_percentage (is_indoor : bool) (venue_type : option string)
    (has_seating : bool) :
  (0 <= compute_accessibility_score is_indoor venue_type has_seating <= 100)%Q.
Proof. apply clamp100_bounds. Qed.

Lemma score_venue_overall (name : string) (busyness_pct : option Q)
    (is_outdoor : bool) (duration_minutes : option Z)
    (venue_type description : option string) (has_seating : bool)
    (distance_km : option Q) (estimated_steps : option Z) :
  exists walk,
    (0 <= walk <= 100)%Q
    /\ let overall := elderly_overall (compute_crowd_score busyness_pct) walk
                        (compute_accessibility_score (negb is_outdoor) venue_type has_seating) in
       let s := score_venue_for_elderly name busyness_pct is_outdoor duration_minutes
                  venue_type description has_seating distance_km estimated_steps in
       overall_score s = round1 overall
       /\ recommendation s = recommendation_tier overall
       /\ walkability_score s = round1 walk.
Proof.
  eexists. split; [|cbv zeta; repeat split].
  apply clamp100_bounds.
Qed.

Lemma elderly_overall_percentage (crowd walk access : Q) :
  (0 <= crowd <= 100 -> 0 <= walk <= 100 -> 0 <= access <= 100 ->
   0 <= elderly_overall crowd walk access <= 100)%Q.
Proof. unfold elderly_overall. intros. lra. Qed.

(** X5. Every score of a [VenueScore] is a percentage. *)
Theorem elderly_scores_are_percentages (name : string) (busyness_pct : option Q)
    (is_outdoor : bool) (duration_minutes : option Z)
    (venue_type description : option string) (has_seating : bool)
    (distance_km : option Q) (estimated_steps : option Z) :
  let s := score_venue_for_elderly name busyness_pct is_outdoor duration_minutes
             venue_type description has_seating distance_km estimated_steps in
  (0 <= crowd_score s <= 100 /\ 0 <= walkability_score s <= 100
   /\ 0 <= accessibility_score s <= 100 /\ 0 <= overall_score s <= 100)%Q.
Proof.
  cbv zeta. unfold score_venue_for_elderly. cbn [crowd_score walkability_score
    accessibility_score overall_score].
  repeat split; apply round1_percentage;
    try apply crowd_score_percentage; try apply clamp100_bounds;
    apply (elderly_overall_percentage _ _ _ (crowd_score_percentage _)
             (clamp100_bounds _) (clamp100_bounds _)).
Qed.

(** X6. A busier venue never gets a higher overall score, the other
    inputs being equal. *)
Theorem elderly_overall_antitone_in_busyness (name : string) (b1 b2 : Q)
    (is_outdoor : bool) (duration_minutes : option Z)
    (venue_type description : option string) (has_seating : bool)
    (distance_km : option Q) (estimated_steps : option Z) :
  (b1 <= b2)%Q ->
  Qle (overall_score (score_venue_for_elderly name (Some b2) is_outdoor duration_minutes
                        venue_type description has_seating distance_km estimated_steps))
      (overall_score (score_venue_for_elderly name (Some b1) is_outdoor duration_minutes
                        venue_type description has_seating distance_km estimated_steps)).
Proof.
  intro H. unfold score_venue_for_elderly. cbn [overall_score].
  apply round1_mono.
  pose proof (crowd_score_mono b1 b2 H) as L. lra.
Qed.

Lemma elderly_overall_antitone_in_busyness_witness :
  Qle (overall_score (score_venue_for_elderly "Fort" (Some 85%Q) true (Some 90)
                        (Some "monument") None true None None))
      (overall_score (score_venue_for_elderly "Fort" (Some 20%Q) true (Some 90)
                        (Some "monument") None true None None)).
Proof.
  apply (elderly_overall_antitone_in_busyness "Fort" 20 85 true (Some 90)
           (Some "monument") None true None None).
  unfold Qle. simpl. lia.
Defined.

Lemma round1_ge (x : Q) (n : Z) : (inject_Z n <= x)%Q -> (inject_Z n <= round1 x)%Q.
Proof.
  intro H. apply (Qle_trans _ (round1 (inject_Z n))); [|apply round1_mono, H].
  unfold round1, round_to.
  assert (E : (inject_Z n * (10 # 1) == inject_Z (n * 10))%Q)
    by (unfold Qeq; simpl; lia).
  rewrite (round_q_comp _ _ E), round_q_integer.
  unfold Qle. simpl. lia.
Qed.

Lemma round1_le (x : Q) (n : Z) : (x <= inject_Z n)%Q -> (round1 x <= inject_Z n)%Q.
Proof.
  intro H. apply (Qle_trans _ (round1 (inject_Z n))); [apply round1_mono, H|].
  unfold round1, round_to.
  assert (E : (inject_Z n * (10 # 1) == inject_Z (n * 10))%Q)
    by (unfold Qeq; simpl; lia).
  rewrite (round_q_comp _ _ E), round_q_integer.
  unfold Qle. simpl. lia.
Qed.

(** X7. The recommendation tier agrees with the reported overall score:
    the score lies in the band of the tier (75 to 100, 55 to 75, 35 to
    55, 0 to 35), a boundary value belonging to either side because the
    tier is taken before rounding. *)
Theorem elderly_tier_matches_score (name : string) (busyness_pct : option Q)
    (is_outdoor : bool) (duration_minutes : option Z)
    (venue_type description : option string) (has_seating : bool)
    (distance_km : option Q) (estimated_steps : option Z) :
  let s := score_venue_for_elderly name busyness_pct is_outdoor duration_minutes
             venue_type description has_seating distance_km estimated_steps in
  (tier_floor (recommendation s) <= overall_score s
   /\ overall_score s <= tier_ceiling (recommendation s))%Q.
Proof.
  cbv zeta.
  destruct (score_venue_overall name busyness_pct is_outdoor duration_minutes venue_type
              description has_seating distance_km estimated_steps)
    as (walk & Hw & Ho & Hr & _).
  rewrite Ho, Hr.
  set (overall := elderly_overall _ _ _).
  assert (R : (0 <= overall <= 100)%Q)
    by (apply elderly_overall_percentage;
        [apply crowd_score_percentage | exact Hw | apply clamp100_bounds]).
  unfold recommendation_tier.
  destruct (Qle_bool 75 overall) eqn:E75;
    [apply Qle_bool_iff in E75
    | apply (Qgt_bool_true 75 overall) in E75 || (assert (overall < 75)%Q as E75'
        by (apply Qnot_le_lt; intro L; apply Qle_bool_iff in L; congruence))].
  - split; [apply (round1_ge overall 75), E75 | apply (round1_le overall 100), R].
  - destruct (Qle_bool 55 overall) eqn:E55.
    + apply Qle_bool_iff in E55.
      split; [apply (round1_ge overall 55), E55
             | apply (round1_le overall 75), Qlt_le_weak, E75'].
    + assert (overall < 55)%Q as E55'
          by (apply Qnot_le_lt; intro L; apply Qle_bool_iff in L; congruence).
      destruct (Qle_bool 35 overall) eqn:E35.
      * apply Qle_bool_iff in E35.
        split; [apply (round1_ge overall 35), E35
               | apply (round1_le overall 55), Qlt_le_weak, E55'].
      * assert (overall < 35)%Q as E35'
            by (apply Qnot_le_lt; intro L; apply Qle_bool_iff in L; congruence).
        split; [apply (round1_ge overall 0), R
               | apply (round1_le overall 35), Qlt_le_weak, E35'].
Qed.

End ElderlyRanges.

(** ** Child scorer: ranges, tiers and the iteration order *)

Section ChildRanges.

Import child_scorer.

Lemma assoc_in {A} (d : list (string * A)) (k : string) (v : A) :
  assoc d k = Some v -> In v (map snd d).
Proof.
  induction d as [|[k' v'] r IH]; simpl; [discriminate|].
  destruct (String.eqb k' k); [intro E; injection E as ->; now left | auto].
Qed.

(** X8. Every score of a [ChildScore] is a percentage, whatever the
    iteration order of the set of types. *)
Theorem child_scores_are_percentages (iteration_order : list string)
    (name : string) (description : option string) (is_outdoor : bool)
    (duration_minutes : option Z) (venue_type : option string) :
  let s := score_activity_for_child iteration_order name description is_outdoor
             duration_minutes venue_type in
  (0 <= fun_score s <= 100 /\ 0 <= safety_score s <= 100
   /\ 0 <= engagement_score s <= 100 /\ 0 <= overall_score s <= 100)%Q.
Proof.
  cbv zeta. unfold score_activity_for_child.
  cbn [fun_score safety_score engagement_score overall_score].
  repeat split; apply round1_percentage; apply clamp100_bounds.
Qed.

Lemma alternatives_not_empty (vtype : string) (alts : list string) :
  assoc _ALTERNATIVES vtype = Some alts -> alts <> [].
Proof.
  intro H. apply assoc_in in H. simpl in H.
  repeat (destruct H as [<-|H]; [discriminate|]). destruct H.
Qed.

Lemma venue_emoji_not_star (vtype e : string) :
  assoc _VENUE_EMOJIS vtype = Some e -> e <> "🌟".
Proof.
  intro H. apply assoc_in in H. simpl in H.
  repeat (destruct H as [<-|H]; [discriminate|]). destruct H.
Qed.

(** X9. An alternative is suggested exactly for the two lower tiers
    ("Okay", "Not for Kids"), and the star replaces the venue emoji
    exactly for the tier "Super Fun!". *)
Theorem child_alternative_and_star (iteration_order : list string)
    (name : string) (description : option string) (is_outdoor : bool)
    (duration_minutes : option Z) (venue_type : option string) :
  let s := score_activity_for_child iteration_order name description is_outdoor
             duration_minutes venue_type in
  (suggested_alternative s = None
   <-> recommendation s = "Super Fun!" \/ recommendation s = "Good for Kids")
  /\ (emoji s = "🌟" <-> recommendation s = "Super Fun!").
Proof.
  cbv zeta. unfold score_activity_for_child.
  cbn [suggested_alternative recommendation emoji].
  set (vtype := if opt_str_truthy venue_type then _ else _).
  set (overall := clamp100 _).
  unfold recommendation_tier, Qgt_bool.
  destruct (Qle_bool 75 overall) eqn:E75.
  - assert (E55 : Qle_bool 55 overall = true).
    { apply Qle_bool_iff. apply Qle_bool_iff in E75. lra. }
    rewrite E55. cbn [negb]. split; split; auto.
  - split.
    + destruct (Qle_bool 55 overall) eqn:E55; cbn [negb].
      * split; auto.
      * split.
        -- destruct (assoc _ALTERNATIVES vtype) as [alts|] eqn:Ea.
           ++ destruct alts as [|alt alts'];
                [apply alternatives_not_empty in Ea; congruence
                | simpl; intro H; discriminate H].
           ++ simpl. intro H. discriminate H.
        -- destruct (Qle_bool 35 overall); intros [H|H]; discriminate H.
    + split.
      * destruct (assoc _VENUE_EMOJIS vtype) as [e|] eqn:Ee.
        -- intro H. now apply venue_emoji_not_star in Ee.
        -- intro H. discriminate H.
      * destruct (Qle_bool 55 overall); [intro H; discriminate H|].
        destruct (Qle_bool 35 overall); intro H; discriminate H.
Qed.

Lemma mem_in (x : string) (l : list string) : In x l -> mem x l = true.
Proof.
  intro H. unfold mem. apply existsb_exists. exists x. split; [exact H|].
  apply String.eqb_refl.
Qed.

Lemma find_perm_none {A} (p : A -> bool) (l l' : list A) :
  Permutation l l' -> find p l = None -> find p l' = None.
Proof.
  intros P H.
  destruct (find p l') as [v|] eqn:E; [|reflexivity].
  apply find_some in E. destruct E as [Hin Hp].
  apply (Permutation_in _ (Permutation_sym P)) in Hin.
  apply (find_none _ _ H) in Hin. congruence.
Qed.

(** X10. The fun score does not depend on the order in which the set of
    kid-friendly types is visited. *)
Theorem fun_score_order_independent (o1 o2 : list string)
    (name : string) (description : option string) (is_outdoor : bool)
    (duration_minutes : option Z) (venue_type : option string) :
  Permutation o1 KID_FRIENDLY_TYPES ->
  Permutation o2 KID_FRIENDLY_TYPES ->
  fun_score (score_activity_for_child o1 name description is_outdoor
               duration_minutes venue_type)
  = fun_score (score_activity_for_child o2 name description is_outdoor
                 duration_minutes venue_type).
Proof.
  intros P1 P2. unfold score_activity_for_child. cbn [fun_score].
  destruct (opt_str_truthy venue_type); [reflexivity|].
  unfold _classify_for_kids. cbv zeta.
  set (text := lower _).
  set (p := fun venue_type0 : string => _ || _).
  destruct (find p o1) as [v1|] eqn:E1.
  - destruct (find p o2) as [v2|] eqn:E2.
    + apply find_some in E1, E2. destruct E1 as [I1 _], E2 as [I2 _].
      apply (Permutation_in _ P1) in I1. apply (Permutation_in _ P2) in I2.
      unfold fun_of. cbv zeta. now rewrite (mem_in _ _ I1), (mem_in _ _ I2).
    + apply (find_perm_none p o2 o1) in E2;
        [congruence | eapply perm_trans; [exact P2 | apply Permutation_sym, P1]].
  - rewrite (find_perm_none p o1 o2 (perm_trans P1 (Permutation_sym P2)) E1).
    reflexivity.
Qed.

Lemma fun_score_order_independent_witness :
  fun_score (score_activity_for_child KID_FRIENDLY_TYPES "Zoo and park day" None true
               (Some 90) None)
  = fun_score (score_activity_for_child (rev KID_FRIENDLY_TYPES) "Zoo and park day" None true
                 (Some 90) None).
Proof.
  apply (fun_score_order_independent KID_FRIENDLY_TYPES (rev KID_FRIENDLY_TYPES)
           "Zoo and park day" None true (Some 90) None).
  - apply Permutation_refl.
  - apply Permutation_sym, Permutation_rev.
Defined.

(** The engagement score does depend on it: a text naming a zoo and a park
    is a zoo in one order and a park in the other. *)
Example engagement_depends_on_order :
  engagement_score (score_activity_for_child KID_FRIENDLY_TYPES "Zoo and park day" None true
                      (Some 90) None)
  <> engagement_score (score_activity_for_child (rev KID_FRIENDLY_TYPES) "Zoo and park day"
                         None true (Some 90) None).
Proof. vm_compute. discriminate. Qed.

End ChildRanges.

(** ** Crowd predictor: the week, out-of-range arguments, keywords *)

Section PredictorMore.

Import crowd_predictor.

Lemma week_law_all :
  forallb (fun vt => forallb (week_law vt) hours) venue_types = true.
Proof. vm_compute. reflexivity. Qed.

Lemma in_week (d : Z) : 0 <= d <= 6 -> In d week.
Proof.
  intro H. unfold week. apply in_map_iff. exists (Z.to_nat d).
  split; [lia | apply in_seq; lia].
Qed.

(** X11. Over the week (Monday = 0 to Sunday = 6) the predicted busyness
    of a venue at a given hour never falls from a day to a later day. *)
Theorem busyness_rises_over_week
    (title : string) (location : option string) (hour : option Z) (d1 d2 : Z) :
  0 <= d1 -> d1 <= d2 -> d2 <= 6 ->
  exists b1 tip1 b2 tip2 vt,
    predict_busyness title location hour (Some d1) = Ok (b1, tip1, vt)
    /\ predict_busyness title location hour (Some d2) = Ok (b2, tip2, vt)
    /\ b1 <= b2.
Proof.
  intros H0 H12 H6.
  pose proof (classify_venue_in title location) as Hvt.
  destruct (busyness_for_hour_cases (classify_venue title location) hour) as (h & Hh & E).
  rewrite !predict_busyness_unfold. cbv zeta. rewrite !E.
  pose proof week_law_all as K.
  rewrite forallb_forall in K. specialize (K _ Hvt).
  rewrite forallb_forall in K. specialize (K h Hh).
  unfold week_law in K.
  rewrite forallb_forall in K. specialize (K d1 (in_week d1 ltac:(lia))).
  rewrite forallb_forall in K. specialize (K d2 (in_week d2 ltac:(lia))).
  destruct (Z.leb_spec d1 d2); [|lia].
  destruct (busyness_for _ h (Some d1)) as [b1|]; [|discriminate].
  destruct (busyness_for _ h (Some d2)) as [b2|]; [|discriminate].
  do 5 eexists. repeat split. now apply Z.leb_le.
Qed.

Lemma busyness_rises_over_week_witness :
  exists b1 tip1 b2 tip2 vt,
    predict_busyness "Meenakshi Temple" (Some "Madurai") (Some 7) (Some 2) = Ok (b1, tip1, vt)
    /\ predict_busyness "Meenakshi Temple" (Some "Madurai") (Some 7) (Some 5) = Ok (b2, tip2, vt)
    /\ b1 <= b2.
Proof.
  apply (busyness_rises_over_week "Meenakshi Temple" (Some "Madurai") (Some 7) 2 5); lia.
Defined.

Lemma in_range_outside (lo hi x blo bhi : Z) :
  x < blo \/ bhi < x -> blo <= lo -> hi <= bhi -> in_range lo x hi = false.
Proof.
  intros H Hlo Hhi. unfold in_range.
  destruct (Z.leb_spec lo x), (Z.leb_spec x hi); try reflexivity. lia.
Qed.

Lemma venue_tip_outside (vt : string) (h : Z) :
  h < 0 \/ 23 < h -> venue_tip vt (Some h) = "".
Proof.
  intro H. unfold venue_tip.
  rewrite !(in_range_outside _ _ h 0 23 H) by lia.
  repeat match goal with |- context [String.eqb ?a ?b] => destruct (String.eqb a b) end;
    reflexivity.
Qed.

(** X12. An hour outside 0..23 counts as no hour and a day outside 0..6 as
    no day: the result, tip included, is the one for the absent argument. *)
Theorem out_of_range_counts_as_absent
    (title : string) (location : option string) (h d : Z) :
  h < 0 \/ 23 < h ->
  d < 0 \/ 6 < d ->
  (forall day, predict_busyness title location (Some h) day
               = predict_busyness title location None day)
  /\ (forall hour, predict_busyness title location hour (Some d)
                   = predict_busyness title location hour None).
Proof.
  intros Hh Hd. split.
  - intro day. rewrite !predict_busyness_unfold. cbv zeta.
    rewrite (venue_tip_outside _ h Hh). unfold busyness_for, base_busyness.
    now rewrite (in_range_outside 0 23 h 0 23 Hh) by lia.
  - intro hour. unfold predict_busyness, apply_day.
    now rewrite (in_range_outside 0 6 d 0 6 Hd) by lia.
Qed.

Lemma out_of_range_counts_as_absent_witness :
  (forall day, predict_busyness "Marina Beach" None (Some 24) day
               = predict_busyness "Marina Beach" None None day)
  /\ (forall hour, predict_busyness "Marina Beach" None hour (Some 7)
                   = predict_busyness "Marina Beach" None hour None).
Proof.
  apply (out_of_range_counts_as_absent "Marina Beach" None 24 7); lia.
Defined.

(** X13. The keyword [hotel] stands in the restaurant list, which is
    tried before the hotel list: a text that contains it is classified
    beach, temple or restaurant, never hotel. *)
Theorem hotel_keyword_never_hotel (title : string) (location : option string) :
  contains "hotel" (lower (title ++ " " ++ or_empty location)) = true ->
  In (classify_venue title location) ["beach"; "temple"; "restaurant"]
  /\ classify_venue title location <> "hotel".
Proof.
  intro H. unfold classify_venue, _VENUE_PATTERNS. cbn [first_pattern].
  set (text := lower _) in *.
  destruct (existsb _ ["beach"; "shore"; "coast"; "seaside"; "marina"]).
  { split; [simpl; tauto | discriminate]. }
  destruct (existsb _ ["temple"; "mandir"; "kovil"; "church"; "mosque"; "shrine";
                       "cathedral"; "basilica"]).
  { split; [simpl; tauto | discriminate]. }
  match goal with
  | |- context [existsb ?f ?l] =>
      assert (E : existsb f l = true)
        by (apply existsb_exists; exists "hotel"; split; [simpl; tauto | exact H])
  end.
  rewrite E. split; [simpl; tauto | discriminate].
Qed.

Lemma hotel_keyword_never_hotel_witness :
  In (classify_venue "Check-in at Hotel Sea View" None) ["beach"; "temple"; "restaurant"]
  /\ classify_venue "Check-in at Hotel Sea View" None <> "hotel".
Proof.
  apply (hotel_keyword_never_hotel "Check-in at Hotel Sea View" None). reflexivity.
Defined.

Lemma lower_ascii_idempotent (c : ascii) : lower_ascii (lower_ascii c) = lower_ascii c.
Proof. destruct c as [[] [] [] [] [] [] [] []]; reflexivity. Qed.

Lemma lower_idempotent (s : string) : lower (lower s) = lower s.
Proof. induction s; simpl; [reflexivity | now rewrite lower_ascii_idempotent, IHs]. Qed.

Lemma lower_append (a b : string) : lower (a ++ b) = (lower a ++ lower b)%string.
Proof. induction a; simpl; [reflexivity | now rewrite IHa]. Qed.

(** X14. The classification ignores letter case: a title and a location
    classify as their lowercase forms do. *)
Theorem classify_venue_ignores_case (title : string) (location : option string) :
  classify_venue title location
  = classify_venue (lower title) (option_map lower location).
Proof.
  unfold classify_venue.
  assert (E : lower (lower title ++ " " ++ or_empty (option_map lower location))
              = lower (title ++ " " ++ or_empty location)).
  { rewrite !lower_append, lower_idempotent.
    destruct location; simpl; now rewrite ?lower_idempotent. }
  now rewrite E.
Qed.

End PredictorMore.

(** ** What a request costs: sleeps and HTTP exchanges *)

Section Costs.

Import besttime.

Lemma sleep_seconds_app (a b : list event) :
  sleep_seconds (a ++ b) = sleep_seconds a + sleep_seconds b.
Proof. induction a as [|[s|req r] a IH]; simpl; lia. Qed.

Lemma http_count_app (a b : list event) :
  http_count (a ++ b) = http_count a + http_count b.
Proof. induction a as [|[s|req r] a IH]; cbn [http_count app]; lia. Qed.

Lemma costs_ret {A} (a : A) : costs (ret a) 0 0.
Proof. intros svc w. exists []. simpl. rewrite app_nil_r. repeat split; lia. Qed.

Lemma costs_throw {A} (e : exn) : costs (@throw A e) 0 0.
Proof. intros svc w. exists []. simpl. rewrite app_nil_r. repeat split; lia. Qed.

Lemma costs_lift {A} (r : result A) : costs (lift r) 0 0.
Proof. intros svc w. exists []. simpl. rewrite app_nil_r. repeat split; lia. Qed.

Lemma costs_http (req : request) : costs (http req) 0 1.
Proof. intros svc w. eexists. split; [reflexivity|]. simpl. lia. Qed.

Lemma costs_weaken {A} (m : IO A) (s c s' c' : Z) :
  costs m s c -> s <= s' -> c <= c' -> costs m s' c'.
Proof.
  intros H Hs Hc svc w. destruct (H svc w) as (added & E & S & C).
  exists added. repeat split; [exact E | lia | lia].
Qed.

Lemma costs_bind {A B} (m : IO A) (k : A -> IO B) (s1 c1 s2 c2 : Z) :
  costs m s1 c1 -> (forall a, costs (k a) s2 c2) -> 0 <= s2 -> 0 <= c2 ->
  costs (bindIO m k) (s1 + s2) (c1 + c2).
Proof.
  intros Hm Hk Hs Hc svc w. unfold bindIO.
  destruct (Hm svc w) as (a1 & E1 & S1 & C1).
  destruct (m svc w) as [[a|e] w1]; simpl in E1; subst w1.
  - destruct (Hk a svc (w ++ a1)) as (a2 & E2 & S2 & C2).
    exists (a1 ++ a2). rewrite E2, app_assoc, sleep_seconds_app, http_count_app.
    repeat split; lia.
  - exists a1. simpl. repeat split; lia.
Qed.

Lemma costs_try {A} (body : IO A) (handler : exn -> IO A) (s1 c1 s2 c2 : Z) :
  costs body s1 c1 -> (forall e, costs (handler e) s2 c2) -> 0 <= s2 -> 0 <= c2 ->
  costs (try_except body handler) (s1 + s2) (c1 + c2).
Proof.
  intros Hm Hk Hs Hc svc w. unfold try_except.
  destruct (Hm svc w) as (a1 & E1 & S1 & C1).
  destruct (body svc w) as [[a|e] w1]; simpl in E1; subst w1.
  - exists a1. simpl. repeat split; lia.
  - destruct (Hk e svc (w ++ a1)) as (a2 & E2 & S2 & C2).
    exists (a1 ++ a2). rewrite E2, app_assoc, sleep_seconds_app, http_count_app.
    repeat split; lia.
Qed.

Lemma len_cons {A} (a : A) (l : list A) : len (a :: l) = 1 + len l.
Proof. unfold len. simpl length. lia. Qed.

Lemma len_nonneg {A} (l : list A) : 0 <= len l.
Proof. unfold len. lia. Qed.

Lemma costs_for_each {A B} (f : A -> IO B) (s c : Z) (l : list A) :
  (forall a, costs (f a) s c) -> 0 <= s -> 0 <= c ->
  costs (for_each f l) (s * len l) (c * len l).
Proof.
  intros Hf Hs Hc. induction l as [|a r IH]; cbn [for_each].
  - eapply costs_weaken; [apply costs_ret | |]; unfold len; simpl; lia.
  - rewrite len_cons. pose proof (len_nonneg r).
    eapply costs_weaken;
      [apply (costs_bind _ _ s c (s * len r + 0) (c * len r + 0)); [apply Hf | | nia | nia]
      | lia | lia].
    intro b. apply costs_bind; [exact IH | intro; apply costs_ret | lia | lia].
Qed.

Lemma costs_poll_once (job_id collection_id : json) (progress_data : option json) :
  costs (poll_once job_id collection_id progress_data) 2 1.
Proof.
  intros svc w. unfold poll_once, bindIO, sleep, http.
  set (w1 := w ++ [EvSleep poll_interval]).
  set (r := svc w1 _).
  exists [EvSleep poll_interval; EvHttp (GetVenuesProgress job_id collection_id) r].
  split.
  - destruct r as [pd|e]; [destruct (job_finished_of pd) as [flag|]; [destruct (truthy flag)|]|];
      simpl; subst w1; now rewrite <- app_assoc.
  - simpl. unfold poll_interval. lia.
Qed.

Lemma costs_poll_loop (job_id collection_id : json) (polls : list nat)
    (progress_data : option json) (start_data : json) :
  costs (poll_loop job_id collection_id polls progress_data start_data)
        (2 * len polls) (len polls).
Proof.
  revert progress_data. induction polls as [|i rest IH]; intro progress_data;
    cbn [poll_loop].
  - apply costs_ret.
  - rewrite len_cons. pose proof (len_nonneg rest).
    eapply costs_weaken;
      [apply (costs_bind _ _ 2 1 (2 * len rest) (len rest));
         [apply costs_poll_once | | lia | lia]
      | lia | lia].
    intros [pd|pd'].
    + eapply costs_weaken; [apply costs_ret | lia | lia].
    + apply IH.
Qed.

Lemma costs_venue_search (self : BestTimeClient) (query : string) (num : Z) :
  costs (venue_search self query num) 30 16.
Proof.
  unfold venue_search.
  change 30 with (0 + (0 + (0 + 30))). change 16 with (1 + (0 + (0 + 15))).
  apply costs_bind; [apply costs_http | | lia | lia]. intro start_data.
  apply costs_bind; [apply costs_lift | | lia | lia]. intro job_id.
  apply costs_bind; [apply costs_lift | | lia | lia]. intro collection_id.
  destruct (negb (truthy job_id) || negb (truthy collection_id)).
  - eapply costs_weaken; [apply costs_ret | lia | lia].
  - apply (costs_poll_loop job_id collection_id (seq 0 max_polls) None start_data).
Qed.

(** X15. One venue search, however it ends, makes at most 16 HTTP
    exchanges (the job start and 15 polls) and sleeps at most 30 seconds. *)
Theorem venue_search_cost (self : BestTimeClient) (query : string) (num : Z)
    (svc : service) (w : list event) :
  exists added,
    snd (venue_search self query num svc w) = w ++ added
    /\ sleep_seconds added <= 30 /\ http_count added <= 16.
Proof. apply costs_venue_search. Qed.

End Costs.

Section AnalysisCosts.

Import besttime crowd.

Lemma costs_forecast_retry (self : BestTimeClient) (a : ItineraryActivity)
    (hour : option Z) (venue_id : json) (busyness_at_time : option json) :
  costs (forecast_retry self a hour venue_id busyness_at_time) 0 1.
Proof.
  unfold forecast_retry.
  destruct busyness_at_time; [eapply costs_weaken; [apply costs_ret | lia | lia]|].
  destruct (truthy venue_id); [|eapply costs_weaken; [apply costs_ret | lia | lia]].
  destruct (day_of_week a) as [day|]; [|eapply costs_weaken; [apply costs_ret | lia | lia]].
  change 0 with (0 + 0 + 0) at 1. change 1 with (1 + 0 + 0).
  apply costs_try; [|intro; apply costs_ret | lia | lia].
  apply costs_bind; [apply costs_http | intro; apply costs_lift | lia | lia].
Qed.

Lemma costs_analyze_venue (self : BestTimeClient) (a : ItineraryActivity)
    (hour : option Z) (venue : json) :
  costs (analyze_venue self a hour venue) 0 1.
Proof.
  unfold analyze_venue.
  change 0 with (0 + (0 + (0 + 0))). change 1 with (0 + (1 + (0 + 0))).
  apply costs_bind; [apply costs_lift | | lia | lia]. intro extracted.
  apply costs_bind; [apply costs_forecast_retry | | lia | lia]. intro busyness.
  apply costs_bind; [| intros [[b tip] p]; apply costs_ret | lia | lia].
  destruct busyness as [b|].
  - change 0 with (0 + 0). apply costs_bind; [apply costs_lift | intro; apply costs_ret | lia | lia].
  - change 0 with (0 + 0). apply costs_bind; [apply costs_lift | | lia | lia].
    intros [[pred_pct pred_tip] vt]. apply costs_ret.
Qed.

Lemma costs_analyze_activity (bt : option BestTimeClient) (dest : string)
    (a : ItineraryActivity) :
  costs (analyze_activity bt dest a) 30 17.
Proof.
  unfold analyze_activity.
  destruct (available bt) as [self|];
    [|eapply costs_weaken; [apply costs_lift | lia | lia]].
  change 30 with (30 + 0 + 0). change 17 with (16 + 1 + 0).
  apply costs_try; [|intro; apply costs_lift | lia | lia].
  apply costs_bind; [apply costs_venue_search | | lia | lia].
  intro search_data.
  destruct (extract_venues_from_progress search_data) as [|venue rest].
  - eapply costs_weaken; [apply costs_lift | lia | lia].
  - apply costs_analyze_venue.
Qed.

(** X16. An itinerary analysis over [n] activities makes at most [17 n]
    HTTP exchanges and sleeps at most [30 n] seconds, and none at all
    without a configured client. *)
Theorem analyze_itinerary_cost (req : AnalyzeItineraryRequest)
    (bt : option BestTimeClient) (svc : service) (w : list event) :
  exists added,
    snd (analyze_itinerary req bt svc w) = w ++ added
    /\ sleep_seconds added <= 30 * len (activities req)
    /\ http_count added <= 17 * len (activities req)
    /\ (if is_some (available bt) then True else added = []).
Proof.
  assert (C : costs (analyze_itinerary req bt)
                (30 * len (activities req) + 0) (17 * len (activities req) + 0)).
  { unfold analyze_itinerary.
    apply costs_bind; [|intro; apply costs_ret | lia | lia].
    apply costs_for_each; [apply costs_analyze_activity | lia | lia]. }
  destruct (C svc w) as (added & E & S & H).
  exists added. repeat split; [exact E | lia | lia |].
  destruct (available bt) eqn:Hav; [exact I|]. simpl.
  destruct (analyze_itinerary_unconfigured req bt svc w Hav) as (entries & _ & Run).
  rewrite Run in E. simpl in E.
  apply (app_inv_head w). now rewrite app_nil_r.
Qed.

Lemma Forall2_map_eq {A B C} (f : A -> C) (g : B -> C) (l : list A) (l' : list B) :
  Forall2 (fun a b => g b = f a) l l' -> map g l' = map f l.
Proof. induction 1; simpl; congruence. Qed.

(** X17. The analysis has one entry per activity, in the order of the
    request: the entries' [activity] fields are the activities' titles. *)
Theorem analysis_keeps_order (req : AnalyzeItineraryRequest)
    (bt : option BestTimeClient) (svc : service) (w : list event) :
  exists resp w',
    analyze_itinerary req bt svc w = (Ok resp, w')
    /\ resp_destination resp = destination req
    /\ map activity (analysis resp) = map title (activities req).
Proof.
  destruct (analyze_itinerary_ok req bt svc w) as (resp & w' & E & _ & F).
  exists resp, w'. split; [exact E|]. split.
  - revert E. unfold analyze_itinerary, bindIO, ret.
    destruct (for_each _ _ svc w) as [[bs|] w1]; [|discriminate].
    intro H. injection H as <- _. reflexivity.
  - apply Forall2_map_eq. eapply Forall2_impl; [|exact F].
    intros a e M. apply M.
Qed.

(** X18. When the venue found by the search carries a figure of its own,
    that figure is reported as live data and no forecast is fetched. *)
Theorem embedded_figure_wins (self : BestTimeClient) (a : ItineraryActivity)
    (hour : option Z) (venue : json) (q : Q) (svc : service) (w : list event) :
  extract_busyness_from_venue venue (day_of_week a) hour = Ok (Some q) ->
  exists e,
    analyze_venue self a hour venue svc w = (Ok e, w)
    /\ is_predicted e = false
    /\ busyness_at_planned_time e = JNum q.
Proof.
  intro H. unfold analyze_venue, bindIO, lift, ret. rewrite H.
  unfold forecast_retry, ret. cbn [option_map]. cbv iota beta.
  unfold live_tip, json_gt. cbn [number bind].
  destruct (negb (Qle_bool q (inject_Z 80))); [eexists; repeat split|].
  cbn [bind].
  destruct (negb (Qle_bool q (inject_Z 60))); [eexists; repeat split|].
  cbn [bind].
  destruct (negb (Qle_bool q (inject_Z 30))); eexists; repeat split.
Qed.

Lemma embedded_figure_wins_witness :
  exists e,
    analyze_venue live_client
      {| title := "Marina Beach"; location := None; start_time := Some "18:00";
         day_of_week := Some 5 |}
      (Some 18)
      (JDict [("venue_id", JStr "ven-1"); ("busyness", JNum 64)])
      down_service []
    = (Ok e, [])
    /\ is_predicted e = false
    /\ busyness_at_planned_time e = JNum 64.
Proof.
  apply (embedded_figure_wins live_client
           {| title := "Marina Beach"; location := None; start_time := Some "18:00";
              day_of_week := Some 5 |}
           (Some 18) (JDict [("venue_id", JStr "ven-1"); ("busyness", JNum 64)])
           64 down_service []).
  reflexivity.
Defined.

End AnalysisCosts.

(** ** Elderly router: costs and the suggestion list *)

Section ElderlyRouter.

Import besttime elderly_scorer elderly.






Lemma costs_search_all (self : BestTimeClient) (dest : string)
    (search_types : list string) (all_venues : list suggestion_venue) :
  costs (search_all self dest search_types all_venues)
        (30 * len search_types) (16 * len search_types).
Proof.
  revert all_venues.
  induction search_types as [|venue_type rest IH]; intro all_venues; cbn [search_all].
  - apply costs_ret.
  - rewrite len_cons. pose proof (len_nonneg rest).
    eapply costs_weaken;
      [apply (costs_bind _ _ (30 + 0) (16 + 0) (30 * len rest) (16 * len rest));
         [| intro; apply IH | lia | lia]
      | lia | lia].
    apply costs_try; [|intro; apply costs_ret | lia | lia].
    change 30 with (30 + 0). change 16 with (16 + 0).
    apply costs_bind; [apply costs_venue_search | intro; apply costs_ret | lia | lia].
Qed.

Lemma firstn_incl {A} (n : nat) (l : list A) (x : A) : In x (firstn n l) -> In x l.
Proof.
  revert n. induction l as [|a r IH]; intros [|n]; simpl; try tauto.
  intros [->|H]; [now left | right; eapply IH, H].
Qed.

Lemma firstn_sorted {A} (R : A -> A -> Prop) (n : nat) (l : list A) :
  StronglySorted R l -> StronglySorted R (firstn n l).
Proof.
  revert n. induction l as [|a r IH]; intros n S; destruct n; simpl; try constructor.
  - inversion S; subst. now apply IH.
  - inversion S as [|? ? _ F]; subst.
    rewrite Forall_forall in *. intros x Hx. apply F.
    now apply (firstn_incl n r x).
Qed.

Lemma slice_to_sorted {A} (R : A -> A -> Prop) (l : list A) (n : Z) :
  StronglySorted R l -> StronglySorted R (slice_to l n).
Proof. intro S. unfold slice_to. destruct (n <? 0); now apply firstn_sorted. Qed.

Lemma slice_to_length {A} (l : list A) (n : Z) :
  0 <= n -> len (slice_to l n) <= n.
Proof.
  intro H. unfold slice_to, len.
  destruct (Z.ltb_spec n 0); [lia|].
  pose proof (firstn_le_length (Z.to_nat n) l).
  rewrite length_firstn. lia.
Qed.

Lemma searches_started_app (a b : list event) :
  searches_started (a ++ b) = searches_started a ++ searches_started b.
Proof.
  induction a as [|[s|[] r] a IH]; cbn [searches_started app]; try exact IH.
  - reflexivity.
  - now rewrite IH.
Qed.

Lemma starts_ret {A} (a : A) : starts (ret a) [].
Proof. intros svc w. exists []. simpl. now rewrite app_nil_r. Qed.

Lemma starts_throw {A} (e : exn) : starts (@throw A e) [].
Proof. intros svc w. exists []. simpl. now rewrite app_nil_r. Qed.

Lemma starts_lift {A} (r : result A) : starts (lift r) [].
Proof. intros svc w. exists []. simpl. now rewrite app_nil_r. Qed.

(** What follows [m] starts no search: the searches are those of [m]. *)
Lemma starts_bind {A B} (m : IO A) (k : A -> IO B) (qs : list (string * Z)) :
  starts m qs -> (forall a, starts (k a) []) -> starts (bindIO m k) qs.
Proof.
  intros Hm Hk svc w. unfold bindIO.
  destruct (Hm svc w) as (a1 & E1 & S1).
  destruct (m svc w) as [[a|e] w1]; simpl in E1; subst w1.
  - destruct (Hk a svc (w ++ a1)) as (a2 & E2 & S2).
    exists (a1 ++ a2). rewrite E2, app_assoc, searches_started_app, S1, S2.
    now rewrite app_nil_r.
  - exists a1. auto.
Qed.

(** [m] does not raise: the searches of what follows are added. *)
Lemma starts_then {A B} (m : IO A) (k : A -> IO B) (qs1 qs2 : list (string * Z)) :
  starts m qs1 -> returns m -> (forall a, starts (k a) qs2) ->
  starts (bindIO m k) (qs1 ++ qs2).
Proof.
  intros Hm Rm Hk svc w. unfold bindIO.
  destruct (Hm svc w) as (a1 & E1 & S1). destruct (Rm svc w) as (a & Ea).
  destruct (m svc w) as [[a'|e] w1]; simpl in E1, Ea; subst w1; [|discriminate Ea].
  destruct (Hk a' svc (w ++ a1)) as (a2 & E2 & S2).
  exists (a1 ++ a2). now rewrite E2, app_assoc, searches_started_app, S1, S2.
Qed.

Lemma starts_try {A} (body : IO A) (handler : exn -> IO A) (qs : list (string * Z)) :
  starts body qs -> (forall e, starts (handler e) []) ->
  starts (try_except body handler) qs.
Proof.
  intros Hm Hk svc w. unfold try_except.
  destruct (Hm svc w) as (a1 & E1 & S1).
  destruct (body svc w) as [[a|e] w1]; simpl in E1; subst w1.
  - exists a1. auto.
  - destruct (Hk e svc (w ++ a1)) as (a2 & E2 & S2).
    exists (a1 ++ a2). rewrite E2, app_assoc, searches_started_app, S1, S2.
    now rewrite app_nil_r.
Qed.

Lemma returns_try {A} (body : IO A) (handler : exn -> IO A) :
  (forall e, returns (handler e)) -> returns (try_except body handler).
Proof.
  intros H svc w. unfold try_except.
  destruct (body svc w) as [[a|e] w1]; [now exists a | apply H].
Qed.

Lemma starts_poll_loop (job_id collection_id : json) (polls : list nat)
    (progress_data : option json) (start_data : json) :
  starts (poll_loop job_id collection_id polls progress_data start_data) [].
Proof.
  revert progress_data. induction polls as [|i rest IH]; intro progress_data;
    cbn [poll_loop].
  - apply starts_ret.
  - apply starts_bind.
    + intros svc w. unfold poll_once, bindIO, sleep, http.
      set (w1 := w ++ [EvSleep poll_interval]).
      set (r := svc w1 _).
      exists [EvSleep poll_interval; EvHttp (GetVenuesProgress job_id collection_id) r].
      split; [|reflexivity].
      destruct r as [pd|e];
        [destruct (job_finished_of pd) as [flag|]; [destruct (truthy flag)|]|];
        simpl; subst w1; now rewrite <- app_assoc.
    + intros [pd|pd']; [apply starts_ret | apply IH].
Qed.

(** One venue search starts one search job, the one it was asked for. *)
Lemma starts_venue_search (self : BestTimeClient) (query : string) (num : Z) :
  starts (besttime.venue_search self query num) [(query, num)].
Proof.
  unfold besttime.venue_search.
  apply starts_bind.
  - intros svc w. eexists. split; reflexivity.
  - intro start_data. apply starts_bind; [apply starts_lift|]. intro job_id.
    apply starts_bind; [apply starts_lift|]. intro collection_id.
    destruct (negb (truthy job_id) || negb (truthy collection_id));
      [apply starts_ret | apply starts_poll_loop].
Qed.

Lemma starts_search_all (self : BestTimeClient) (dest : string)
    (search_types : list string) (all_venues : list suggestion_venue) :
  starts (search_all self dest search_types all_venues)
         (map (fun venue_type => ((venue_type ++ " in " ++ dest)%string, 3)) search_types).
Proof.
  revert all_venues.
  induction search_types as [|venue_type rest IH]; intro all_venues; cbn [search_all map].
  - apply starts_ret.
  - apply (starts_then _ _ [((venue_type ++ " in " ++ dest)%string, 3)]).
    + apply starts_try; [|intro; apply starts_ret].
      apply starts_bind; [apply starts_venue_search | intro; apply starts_ret].
    + apply returns_try. intros e svc w. now eexists.
    + intro. apply IH.
Qed.

(** X20. With a configured client the elderly suggestion search starts
    exactly one venue search per type, in the order of the request: the
    query [<type> in <destination>] for 3 venues, over the six default
    types when the request names none; without one it starts none, makes
    no exchange and raises the 503 error.  It makes at most 16 HTTP
    exchanges and sleeps at most 30 seconds per type; what it returns is
    sorted by falling overall score and, for [num >= 0], holds at most
    [num] suggestions. *)
Theorem elderly_suggestions_bounded (req : ElderlySearchRequest)
    (bt : option BestTimeClient) (svc : service) (w : list event) :
  (exists added,
     snd (get_elderly_suggestions req bt svc w) = w ++ added
     /\ sleep_seconds added <= 30 * len (search_types_of req)
     /\ http_count added <= 16 * len (search_types_of req)
     /\ match crowd.available bt with
        | Some _ =>
            searches_started added = map (suggestion_query req) (search_types_of req)
        | None =>
            added = []
            /\ fst (get_elderly_suggestions req bt svc w)
               = Raise (HTTPException 503
                          "BestTime API keys not configured. Elderly suggestions require crowd data.")
        end)
  /\ match fst (get_elderly_suggestions req bt svc w) with
     | Ok suggestions =>
         StronglySorted (desc overall_score) suggestions
         /\ (if 0 <=? num req then len suggestions <= num req else True)
     | Raise _ => True
     end.
Proof.
  split.
  - assert (C : costs (get_elderly_suggestions req bt)
                  (30 * len (search_types_of req) + (0 + 0))
                  (16 * len (search_types_of req) + (0 + 0))).
    { unfold get_elderly_suggestions. pose proof (len_nonneg (search_types_of req)).
      destruct (crowd.available bt) as [self|];
        [|eapply costs_weaken; [apply costs_throw | lia | lia]].
      cbv zeta. fold (search_types_of req).
      apply costs_bind; [apply costs_search_all | | lia | lia].
      intros [|v vs]; [eapply costs_weaken; [apply costs_throw | lia | lia]|].
      apply costs_bind; [apply costs_lift | intro; apply costs_ret | lia | lia]. }
    destruct (C svc w) as (added & E & S & H).
    exists added. repeat split; [exact E | lia | lia |].
    destruct (crowd.available bt) as [self|] eqn:Hav.
    + assert (T : starts (get_elderly_suggestions req bt)
                    (map (suggestion_query req) (search_types_of req))).
      { unfold get_elderly_suggestions. rewrite Hav. cbv zeta.
        fold (search_types_of req).
        apply starts_bind; [apply starts_search_all|].
        intros [|v vs]; [apply starts_throw|].
        apply starts_bind; [apply starts_lift | intro; apply starts_ret]. }
      destruct (T svc w) as (added' & E' & S').
      rewrite E in E'. apply app_inv_head in E'. now subst added'.
    + revert E. unfold get_elderly_suggestions. rewrite Hav. unfold throw. cbn [fst snd].
      intro E. split; [|reflexivity].
      rewrite <- (app_nil_r w) in E at 1. apply app_inv_head in E. now subst added.
  - unfold get_elderly_suggestions.
    destruct (crowd.available bt) as [self|]; [|exact I].
    cbv zeta. unfold bindIO, throw, lift, ret.
    destruct (search_all _ _ _ _ svc w) as [[[|v vs]|e] w']; try exact I.
    destruct (for_all suggestion_activity (v :: vs)) as [acts|]; [|exact I].
    cbn [fst]. split.
    + apply slice_to_sorted. unfold rank_activities_for_elderly. apply sort_desc_sorted.
    + destruct (Z.leb_spec 0 (num req)); [now apply slice_to_length | exact I].
Qed.

End ElderlyRouter.

(** ** Child router: suggestions *)

Section ChildRouter.

Import child_scorer child.

(** X21. The suggestions of the child optimisation always end with the
    three fixed reminders, preceded by at most four lines; the hint to
    click "Make it Fun!" is among them exactly when some activity scores
    below 40. *)
Theorem child_suggestions_shape (scored : list ChildScore) :
  (exists lines, suggestions_of scored = lines ++ fixed_reminders
                 /\ (length lines <= 4)%nat)
  /\ (In make_it_fun_hint (suggestions_of scored)
      <-> exists s, In s scored /\ (overall_score s < 40)%Q).
Proof.
  unfold suggestions_of. cbv zeta.
  set (boring := filter (fun s => Qgt_bool 40 (overall_score s)) scored).
  set (fun_ := filter (fun s => Qle_bool 70 (overall_score s)) scored).
  set (okay := filter _ scored).
  assert (Hb : boring <> [] <-> exists s, In s scored /\ (overall_score s < 40)%Q).
  { split.
    - intro N. destruct boring as [|s r] eqn:E; [congruence|].
      assert (I : In s boring) by (rewrite E; now left).
      apply filter_In in I. destruct I as [I G]. exists s. split; [exact I|].
      now apply Qgt_bool_true in G.
    - intros (s & I & L) E.
      assert (I' : In s boring)
        by (apply filter_In; split; [exact I | now apply Qgt_bool_true]).
      rewrite E in I'. destruct I'. }
  split.
  - clear Hb. clearbody boring okay fun_.
    eexists. split; [rewrite !app_assoc; reflexivity|].
    rewrite !length_app.
    destruct fun_, boring, okay; cbn [length]; lia.
  - rewrite <- Hb. clear Hb. clearbody boring okay fun_.
    unfold make_it_fun_hint, dquote.
    split.
    + intro H. intro E. rewrite E in H.
      destruct fun_, okay; cbn [app In] in H;
        repeat (destruct H as [H|H]; [discriminate H|]); destruct H.
    + intro N. destruct boring as [|s r]; [congruence|].
      apply in_or_app. right. apply in_or_app. left. right. now left.
Qed.

(** X22. The kid-friendly suggestions do not depend on the destination:
    every destination gets the six default ones. *)
Theorem kid_suggestions_constant (destination : string) :
  get_kid_suggestions destination = get_kid_suggestions "default"
  /\ length (get_kid_suggestions destination) = 6%nat.
Proof.
  unfold get_kid_suggestions, _KID_DESTINATION_SUGGESTIONS. cbn [assoc].
  destruct (String.eqb "default" (lower destination)); split; reflexivity.
Qed.

End ChildRouter.

(** ** Start times and job-less searches *)

Section StartTimes.

Import besttime crowd.

Lemma venue_search_without_job_witness :
  besttime.venue_search live_client "Marina Beach" 1 jobless_service []
  = (Ok (JDict [("status", JStr "Error"); ("message", JStr "quota")]),
     [] ++ [EvHttp (PostVenuesSearch (api_key_private live_client) "Marina Beach" 1)
              (Ok (JDict [("status", JStr "Error"); ("message", JStr "quota")]))]).
Proof.
  apply (venue_search_without_job live_client "Marina Beach" 1 jobless_service []
           (JDict [("status", JStr "Error"); ("message", JStr "quota")]) JNull JNull);
    reflexivity.
Defined.

Lemma split_first_colon (s rest : string) :
  no_colon s = true -> split_first ":" (s ++ String ":" rest) = s.
Proof.
  induction s as [|c r IH]; simpl.
  - reflexivity.
  - intro H. apply andb_true_iff in H. destruct H as [Hc Hr].
    apply negb_true_iff in Hc. rewrite Hc. now rewrite (IH Hr).
Qed.

Lemma two_digits_ok :
  forallb (fun n => no_colon (two_digits (Z.of_nat n))
                    && match py_int (two_digits (Z.of_nat n)) with
                       | Some v => v =? Z.of_nat n
                       | None => false
                       end
                    && match py_int (str_of_int (Z.of_nat n)) with
                       | Some v => v =? Z.of_nat n
                       | None => false
                       end
                    && no_colon (str_of_int (Z.of_nat n)))
          (seq 0 24) = true.
Proof. vm_compute. reflexivity. Qed.

(** X24. A start time written as a clock time, the hour 0..23 with one or
    two digits, a colon and anything after it, parses to that hour. *)
Theorem parse_hour_of_clock_time (h : Z) (minutes : string) :
  0 <= h <= 23 ->
  parse_hour (Some (two_digits h ++ ":" ++ minutes)%string) = Some h
  /\ parse_hour (Some (str_of_int h ++ ":" ++ minutes)%string) = Some h.
Proof.
  intro H.
  pose proof two_digits_ok as K. rewrite forallb_forall in K.
  specialize (K (Z.to_nat h)). rewrite Z2Nat.id in K by lia.
  assert (I : In (Z.to_nat h) (seq 0 24)) by (apply in_seq; lia).
  specialize (K I). clear I.
  apply andb_true_iff in K. destruct K as [K N2].
  apply andb_true_iff in K. destruct K as [K P2].
  apply andb_true_iff in K. destruct K as [N1 P1].
  assert (T : forall s, no_colon s = true -> s <> "" ->
                        parse_hour (Some (s ++ ":" ++ minutes)%string) = py_int s).
  { intros s Hs Hne. unfold parse_hour.
    assert (E : opt_str_truthy (Some (s ++ ":" ++ minutes)%string) = true)
      by (destruct s; [congruence | reflexivity]).
    rewrite E. cbn [or_empty].
    change (":" ++ minutes)%string with (String ":" minutes).
    now rewrite split_first_colon. }
  split.
  - rewrite T; [| exact N1 |].
    + destruct (py_int (two_digits h)) as [v|]; [|discriminate].
      apply Z.eqb_eq in P1. now subst.
    + intro E. rewrite E in P1. discriminate P1.
  - rewrite T; [| exact N2 |].
    + destruct (py_int (str_of_int h)) as [v|]; [|discriminate].
      apply Z.eqb_eq in P2. now subst.
    + intro E. rewrite E in P2. discriminate P2.
Qed.

Lemma parse_hour_of_clock_time_witness :
  parse_hour (Some (two_digits 7 ++ ":" ++ "45")%string) = Some 7
  /\ parse_hour (Some (str_of_int 7 ++ ":" ++ "45")%string) = Some 7.
Proof. apply (parse_hour_of_clock_time 7 "45"). lia. Defined.

End StartTimes.
